(** * Message system: routing engine, storage abstraction, interceptor pipeline

    A shallow embedding of the Python message system
    ([message_system/core], [storage/backends.py], [routing/router.py],
    [conversation/manager.py], [interceptor/message_interceptor.py]) and
    the properties of its routing, storage and interception code.

    Conventions of the embedding.
    - Python objects with mutable state become records that are passed
      explicitly; an [async def] that can raise becomes a function
      [S -> result A * S]: the state reached is returned also when the
      call raises, as the mutations made before a Python exception stay.
    - Wall-clock time ([datetime.now()]) is a parameter [now : Time] of each
      operation, an integer number of seconds.  One top-level call reads the
      clock once.
    - Dictionaries are [gmap]s, the instance directory of the file backend
      is a [gmap] from file name to file content. *)

From Stdlib Require Import ZArith List String Ascii Bool Lia Sorted.
From stdpp Require Import base option list gmap strings pretty fin_maps.

Local Open Scope Z_scope.
Local Open Scope string_scope.

(** ** Python values *)

(** Instants and durations, in seconds. *)
Abbreviation Time := Z (only parsing).

(** The scalars that appear in message metadata.  [PyObject] stands for an
    arbitrary Python object that [json.dumps] cannot serialise. *)
Inductive Scalar :=
| PyNone
| PyBool (b : bool)
| PyInt (z : Z)
| PyStr (s : string)
| PyObject (n : nat).

Inductive MessageType := TEXT | IMAGE | AUDIO | VIDEO | FILE | SYSTEM.

Inductive MessageStatus :=
| RECEIVED | QUEUED | PROCESSING | PROCESSED | FAILED | IGNORED.

(** [core/message.py], class [Message]. *)
Record Message := {
  msg_id : string;
  sender_id : string;
  recipient_id : string;
  content : string;
  msg_type : MessageType;
  timestamp : Time;
  metadata : gmap string Scalar;
  status : MessageStatus;
  conversation_id : option string
}.

(** [core/message.py], class [ConversationContext]. *)
Record ConversationContext := {
  ctx_conversation_id : string;
  participant_ids : list string;
  created_at : Time;
  updated_at : Time;
  ctx_metadata : gmap string Scalar;
  is_active : bool;
  agent_id : option string;
  agent_persona : option string
}.

(** What the storage backends hold.  The conversation store only ever
    writes Python [str] values: conversation ids, [datetime.isoformat()]
    timestamps and [json.dumps] texts.  The last two are kept in structured
    form: [IsoTime t] is the string [isoformat()] of the instant [t], which
    [datetime.fromisoformat] reads back, and [ContextJson c] is the string
    [_serialize_context c] that [_deserialize_context] reads back. *)
Inductive Value :=
| Plain (s : Scalar)
| IsoTime (t : Time)
| ContextJson (c : ConversationContext).

Coercion Plain : Scalar >-> Value.

(** Python truthiness, as tested by [if x:]. *)
Definition scalar_truthy (s : Scalar) : bool :=
  match s with
  | PyNone => false
  | PyBool b => b
  | PyInt z => negb (Z.eqb z 0)
  | PyStr s => negb (String.eqb s "")
  | PyObject _ => true
  end.

Definition truthy (v : Value) : bool :=
  match v with
  | Plain s => scalar_truthy s
  | IsoTime _ => true
  | ContextJson _ => true
  end.

(** [x is None]. *)
Definition is_None (v : Value) : bool :=
  match v with
  | Plain PyNone => true
  | _ => false
  end.

(** Whether [json.dumps] accepts the value. *)
Definition json_serializable (v : Value) : bool :=
  match v with
  | Plain (PyObject _) => false
  | _ => true
  end.

(** [str(x)], as used by f-strings. *)
Definition scalar_str (s : Scalar) : string :=
  match s with
  | PyNone => "None"
  | PyBool true => "True"
  | PyBool false => "False"
  | PyInt z => pretty z
  | PyStr s => s
  | PyObject _ => "<object>"
  end.

Definition py_str (v : Value) : string :=
  match v with
  | Plain s => scalar_str s
  | IsoTime t => pretty t
  | ContextJson c => "{...}"
  end.

(** ** Exceptions and the state-and-error monad *)

Inductive exn :=
| OSError (path : string)
| TypeError (msg : string)
| JSONDecodeError
| ValueError (msg : string)
| AttributeError (msg : string)
| RuntimeError (msg : string).

Definition exn_str (e : exn) : string :=
  match e with
  | OSError p => "[Errno 13] Permission denied: " ++ p
  | TypeError m => m
  | JSONDecodeError => "Expecting value: line 1 column 1 (char 0)"
  | ValueError m => m
  | AttributeError m => m
  | RuntimeError m => m
  end.

Inductive result (A : Type) :=
| Ok (a : A)
| Raise (e : exn).
Arguments Ok {A} a.
Arguments Raise {A} e.

Definition M (S A : Type) : Type := S -> result A * S.

Definition ret {S A} (a : A) : M S A := fun s => (Ok a, s).
Definition raise {S A} (e : exn) : M S A := fun s => (Raise e, s).
Definition bind {S A B} (m : M S A) (k : A -> M S B) : M S B :=
  fun s =>
    match m s with
    | (Ok a, s') => k a s'
    | (Raise e, s') => (Raise e, s')
    end.

Notation "'let!' x ':=' m 'in' k" := (bind m (fun x => k))
  (at level 10, x binder, m at level 100, k at level 200).

Definition gets {S A} (f : S -> A) : M S A := fun s => (Ok (f s), s).
Definition modify {S} (f : S -> S) : M S unit := fun s => (Ok tt, f s).

(** [try: body / except Exception as e: handler e]. *)
Definition try_except {S A} (body : M S A) (handler : exn -> M S A) : M S A :=
  fun s =>
    match body s with
    | (Ok a, s') => (Ok a, s')
    | (Raise e, s') => handler e s'
    end.

(** [for x in xs: body x], stopping at the first exception. *)
Fixpoint for_each {S A} (xs : list A) (body : A -> M S unit) : M S unit :=
  match xs with
  | [] => ret tt
  | x :: xs' => bind (body x) (fun _ => for_each xs' body)
  end.

(** ** String helpers (Python [str] methods) *)

Definition chars (s : string) : list ascii := list_ascii_of_string s.
Definition of_chars (l : list ascii) : string := string_of_list_ascii l.

(** [s.replace(a, b)] for one-character [a] and [b]. *)
Definition replace_char (a b : ascii) (s : string) : string :=
  of_chars (map (fun c => if Ascii.eqb c a then b else c) (chars s)).

Fixpoint is_prefix (p s : list ascii) : bool :=
  match p, s with
  | [], _ => true
  | _ :: _, [] => false
  | a :: p', b :: s' => Ascii.eqb a b && is_prefix p' s'
  end.

(** [s.replace(old, new)] for a non-empty [old]: occurrences are found from
    left to right and do not overlap.  [skip] counts the characters of an
    occurrence still to be dropped. *)
Fixpoint replace_go (old new : list ascii) (skip : nat) (s : list ascii)
  : list ascii :=
  match s with
  | [] => []
  | c :: s' =>
      match skip with
      | S k => replace_go old new k s'
      | O =>
          if is_prefix old s
          then (new ++ replace_go old new (length old - 1) s')%list
          else c :: replace_go old new O s'
      end
  end.

Definition replace (old new s : string) : string :=
  of_chars (replace_go (chars old) (chars new) O (chars s)).

Fixpoint contains_go (p s : list ascii) : bool :=
  is_prefix p s ||
  match s with
  | [] => false
  | _ :: s' => contains_go p s'
  end.

(** [re.search(p, s)] for a literal [p]. *)
Definition contains (p s : string) : bool := contains_go (chars p) (chars s).
(** [re.search('^' + p, s)] for a literal [p]. *)
Definition startswith (p s : string) : bool := is_prefix (chars p) (chars s).

Definition lower_char (c : ascii) : ascii :=
  let n := nat_of_ascii c in
  if (Nat.leb 65 n && Nat.leb n 90)%bool then ascii_of_nat (n + 32) else c.

Definition lower (s : string) : string := of_chars (map lower_char (chars s)).

Definition is_space (c : ascii) : bool :=
  let n := nat_of_ascii c in
  (Nat.eqb n 32 || (Nat.leb 9 n && Nat.leb n 13) || (Nat.leb 28 n && Nat.leb n 31))%bool.

(** [len(s.strip()) > 0]: some character is not white space. *)
Definition strip_nonempty (s : string) : bool :=
  existsb (fun c => negb (is_space c)) (chars s).

(** [Path.stem]: the file name without its last suffix. *)
Fixpoint rfind_dot (s : list ascii) (i : nat) (last : option nat) : option nat :=
  match s with
  | [] => last
  | c :: s' => rfind_dot s' (S i) (if Ascii.eqb c "." then Some i else last)
  end.

Definition stem (name : string) : string :=
  let cs := chars name in
  match rfind_dot cs O None with
  | Some i =>
      if (Nat.ltb 0 i && Nat.ltb i (length cs - 1))%bool
      then of_chars (take i cs)
      else name
  | None => name
  end.

(** [Path.glob] on the names of one directory: [*] matches any run of
    characters and [?] any one character, neither crossing a [/]; every
    other character matches itself (bracket expressions are not modelled). *)
Fixpoint glob_match (p s : list ascii) : bool :=
  match p with
  | [] => match s with [] => true | _ => false end
  | c :: p' =>
      if Ascii.eqb c "*" then
        (fix star (s : list ascii) : bool :=
           glob_match p' s ||
           match s with
           | [] => false
           | d :: s' => negb (Ascii.eqb d "/") && star s'
           end) s
      else
        match s with
        | [] => false
        | d :: s' =>
            (if Ascii.eqb c "?" then negb (Ascii.eqb d "/") else Ascii.eqb c d)
            && glob_match p' s'
        end
  end.

Definition glob (pattern name : string) : bool :=
  glob_match (chars pattern) (chars name).

(** Python slicing [l[start:stop]] with negative indices counted from the
    end and out-of-range indices clipped; [stop = None] is [l[start:]]. *)
Definition slice_index (len i : Z) : Z :=
  if Z.ltb i 0 then Z.max 0 (len + i) else Z.min i len.

Definition py_slice {A} (l : list A) (start : Z) (stop : option Z) : list A :=
  let len := Z.of_nat (length l) in
  let a := slice_index len start in
  let b := match stop with Some e => slice_index len e | None => len end in
  take (Z.to_nat (b - a)) (drop (Z.to_nat a) l).

(** ** The storage contract ([core/interfaces.py], [IStorageBackend]) *)

Class IStorageBackend (S : Type) := {
  storage_get : Time -> string -> M S Value;
  storage_set : Time -> string -> Value -> option Z -> M S unit;
  storage_delete : Time -> string -> M S unit;
  storage_exists : Time -> string -> M S bool;
  storage_list_keys : Time -> string -> M S (list string);
  storage_append_to_list : Time -> string -> Value -> M S unit;
  storage_get_list : Time -> string -> Z -> Z -> M S (list Value)
}.

(** [if ttl:] on an [Optional[int]]. *)
Definition ttl_given (ttl : option Z) : bool :=
  match ttl with
  | Some n => negb (Z.eqb n 0)
  | None => false
  end.

(** ** The file backend ([storage/backends.py], [LocalFileStorage]) *)

Module LocalFileStorage.

(** The content of a file of the storage directory, as [json.loads] sees
    it.  The [created_at] and [updated_at] stamps, which are written and
    never read, are left out.  [Unreadable] is a file whose text is not
    JSON, an empty file among them. *)
Inductive file :=
| ScalarRecord (value : Value) (ttl : option Z)
| ListRecord (values : list Value)
| Unreadable.

(** One backend instance: the directory [base_path], the in-memory
    [_ttl_registry], and the paths on which the operating system refuses
    to open for writing or to unlink. *)
Record t := {
  files : gmap string file;
  _ttl_registry : gmap string Time;
  faulty : gset string
}.

Definition with_files (f : gmap string file -> gmap string file) (st : t) : t :=
  {| files := f (files st); _ttl_registry := _ttl_registry st; faulty := faulty st |}.

Definition with_registry (f : gmap string Time -> gmap string Time) (st : t) : t :=
  {| files := files st; _ttl_registry := f (_ttl_registry st); faulty := faulty st |}.

Definition _get_file_path (key : string) : string :=
  let safe_key := replace_char ":" "_" key in
  safe_key ++ ".json".

Definition _get_list_file_path (key : string) : string :=
  let safe_key := replace_char ":" "_" key in
  safe_key ++ "_list.json".

(** [Path.exists()]. *)
Definition path_exists (path : string) (st : t) : bool :=
  bool_decide (is_Some (files st !! path)).

(** [json.loads(open(path).read())]. *)
Definition read_json (path : string) : M t file :=
  fun st =>
    match files st !! path with
    | Some Unreadable => (Raise JSONDecodeError, st)
    | Some f => (Ok f, st)
    | None => (Raise (OSError path), st)
    end.

(** [with open(path, 'w') as f: f.write(json.dumps(data))].  Opening
    truncates the file before [json.dumps] runs, so a value that cannot
    be serialised leaves an empty file behind. *)
Definition write_json (path : string) (serializable : bool) (data : file)
  : M t unit :=
  fun st =>
    if decide (path ∈ faulty st) then (Raise (OSError path), st)
    else if serializable then (Ok tt, with_files (<[path := data]>) st)
    else (Raise (TypeError "Object is not JSON serializable"),
          with_files (<[path := Unreadable]>) st).

(** [Path.unlink()]. *)
Definition unlink (path : string) : M t unit :=
  fun st =>
    if decide (path ∈ faulty st) then (Raise (OSError path), st)
    else (Ok tt, with_files (base.delete path) st).

(** [data.get('value')] and [data.get('values', [])]. *)
Definition data_value (data : file) : Value :=
  match data with
  | ScalarRecord v _ => v
  | _ => PyNone
  end.

Definition data_values (data : file) : list Value :=
  match data with
  | ListRecord vs => vs
  | _ => []
  end.

Definition _is_expired (now : Time) (key : string) (st : t) : bool :=
  match _ttl_registry st !! key with
  | Some expiry => Z.ltb expiry now
  | None => false
  end.

Definition delete (now : Time) (key : string) : M t unit :=
  let file_path := _get_file_path key in
  let list_file_path := _get_list_file_path key in
  try_except
    (let! e1 := gets (path_exists file_path) in
     let! _ := (if e1 : bool then unlink file_path else ret tt) in
     let! e2 := gets (path_exists list_file_path) in
     let! _ := (if e2 : bool then unlink list_file_path else ret tt) in
     modify (with_registry (base.delete key)))
    (fun e => ret tt).

Definition get (now : Time) (key : string) : M t Value :=
  let! expired := gets (_is_expired now key) in
  if expired : bool then
    let! _ := delete now key in
    ret (Plain PyNone)
  else
    let file_path := _get_file_path key in
    let! e := gets (path_exists file_path) in
    if negb e then ret (Plain PyNone)
    else
      try_except
        (let! data := read_json file_path in
         ret (data_value data))
        (fun e => ret (Plain PyNone)).

Definition set (now : Time) (key : string) (value : Value) (ttl : option Z)
  : M t unit :=
  let file_path := _get_file_path key in
  try_except
    (let! _ := write_json file_path (json_serializable value)
                 (ScalarRecord value ttl) in
     if ttl_given ttl
     then modify (with_registry (<[key := now + default 0 ttl]>))
     else ret tt)
    (fun e => raise e).

Definition exists_ (now : Time) (key : string) : M t bool :=
  let! expired := gets (_is_expired now key) in
  if expired : bool then
    let! _ := delete now key in
    ret false
  else
    let file_path := _get_file_path key in
    let list_file_path := _get_list_file_path key in
    let! e1 := gets (path_exists file_path) in
    let! e2 := gets (path_exists list_file_path) in
    ret (e1 || e2).

(** [list(self.base_path.glob(pattern))]. *)
Definition dir_glob (pattern : string) (st : t) : list string :=
  filter (fun name => glob pattern name = true) (map fst (map_to_list (files st))).

(** [file_path.stem.replace("_list", "").replace("_", ":")]. *)
Definition key_of_file (name : string) : string :=
  replace_char "_" ":" (replace "_list" "" (stem name)).

Definition list_keys (now : Time) (pattern : string) : M t (list string) :=
  let glob_pattern := replace_char ":" "_" pattern in
  let! m1 := gets (dir_glob (glob_pattern ++ ".json")) in
  let! m2 := gets (dir_glob (glob_pattern ++ "_list.json")) in
  let matching_files := (m1 ++ m2)%list in
  gets (fun st =>
    filter (fun key => _is_expired now key st = false)
           (map key_of_file matching_files)).

Definition append_to_list (now : Time) (key : string) (value : Value)
  : M t unit :=
  let file_path := _get_list_file_path key in
  let! e := gets (path_exists file_path) in
  let! existing_list :=
    (if e : bool then
       try_except
         (let! data := read_json file_path in ret (data_values data))
         (fun e => ret [])
     else ret []) in
  let existing_list := (existing_list ++ [value])%list in
  try_except
    (write_json file_path (json_serializable value) (ListRecord existing_list))
    (fun e => raise e).

Definition get_list (now : Time) (key : string) (start end_ : Z)
  : M t (list Value) :=
  let file_path := _get_list_file_path key in
  let! e := gets (path_exists file_path) in
  if negb e then ret []
  else
    try_except
      (let! data := read_json file_path in
       let values := data_values data in
       if Z.eqb end_ (-1) then ret (py_slice values start None)
       else ret (py_slice values start (Some (end_ + 1))))
      (fun e => ret []).

(** [cleanup_expired]: the keys whose expiry instant has passed are
    collected first and deleted one by one. *)
Definition cleanup_expired (now : Time) : M t unit :=
  let! expired_keys :=
    gets (fun st =>
      map fst (filter (fun ke => Z.ltb (snd ke) now = true)
                      (map_to_list (_ttl_registry st)))) in
  for_each expired_keys (fun key => delete now key).

Definition empty : t :=
  {| files := ∅; _ttl_registry := ∅; faulty := ∅ |}.

End LocalFileStorage.

#[export] Instance LocalFileStorage_backend : IStorageBackend LocalFileStorage.t := {
  storage_get := LocalFileStorage.get;
  storage_set := LocalFileStorage.set;
  storage_delete := LocalFileStorage.delete;
  storage_exists := LocalFileStorage.exists_;
  storage_list_keys := LocalFileStorage.list_keys;
  storage_append_to_list := LocalFileStorage.append_to_list;
  storage_get_list := LocalFileStorage.get_list
}.

(** ** The hybrid backend ([storage/backends.py], [HybridStorage]) *)

Module HybridStorage.
Section Hybrid.
Context {P S : Type} `{IStorageBackend P} `{IStorageBackend S}.

Record t := {
  primary : P;
  secondary : option S;
  sync_enabled : bool
}.

(** [__init__]: sync is off until [enable_sync] is called. *)
Definition init (primary : P) (secondary : option S) : t :=
  {| primary := primary; secondary := secondary; sync_enabled := false |}.

Definition enable_sync : M t unit :=
  modify (fun h => {| primary := primary h; secondary := secondary h;
                      sync_enabled := true |}).

(** [await self.primary.op(...)]. *)
Definition on_primary {A} (op : M P A) : M t A :=
  fun h =>
    let (r, p) := op (primary h) in
    (r, {| primary := p; secondary := secondary h;
           sync_enabled := sync_enabled h |}).

(** [await self.secondary.op(...)]. *)
Definition on_secondary {A} (op : M S A) : M t A :=
  fun h =>
    match secondary h with
    | Some s =>
        let (r, s') := op s in
        (r, {| primary := primary h; secondary := Some s';
               sync_enabled := sync_enabled h |})
    | None =>
        (Raise (AttributeError "'NoneType' object has no attribute"), h)
    end.

(** [if self.secondary:]. *)
Definition has_secondary (h : t) : bool :=
  match secondary h with Some _ => true | None => false end.

(** The body of the loop of [migrate_to_secondary]. *)
Definition migrate_key (now : Time) (key : string) : M t unit :=
  let! list_values := on_primary (storage_get_list now key 0 (-1)) in
  match list_values with
  | _ :: _ =>
      for_each list_values (fun value =>
        on_secondary (storage_append_to_list now key value))
  | [] =>
      let! value := on_primary (storage_get now key) in
      if is_None value then ret tt
      else on_secondary (storage_set now key value None)
  end.

Definition migrate_to_secondary (now : Time) : M t unit :=
  let! sec := gets has_secondary in
  if negb sec then raise (ValueError "No secondary storage configured")
  else
    let! keys := on_primary (storage_list_keys now "*") in
    for_each keys (migrate_key now).

Definition get (now : Time) (key : string) : M t Value :=
  let! value := on_primary (storage_get now key) in
  let! sec := gets has_secondary in
  if is_None value && sec then
    let! value := on_secondary (storage_get now key) in
    let! sync := gets sync_enabled in
    let! _ := (if negb (is_None value) && sync
               then on_primary (storage_set now key value None)
               else ret tt) in
    ret value
  else ret value.

Definition set (now : Time) (key : string) (value : Value) (ttl : option Z)
  : M t unit :=
  let! _ := on_primary (storage_set now key value ttl) in
  let! sec := gets has_secondary in
  let! sync := gets sync_enabled in
  if sec && sync then on_secondary (storage_set now key value ttl)
  else ret tt.

Definition delete (now : Time) (key : string) : M t unit :=
  let! _ := on_primary (storage_delete now key) in
  let! sec := gets has_secondary in
  if sec : bool then on_secondary (storage_delete now key) else ret tt.

Definition exists_ (now : Time) (key : string) : M t bool :=
  let! e := on_primary (storage_exists now key) in
  let! sec := gets has_secondary in
  if negb e && sec then on_secondary (storage_exists now key) else ret e.

(** [list(set(primary keys) | set(secondary keys))]: the order of the
    result is that of first occurrence. *)
Definition list_keys (now : Time) (pattern : string) : M t (list string) :=
  let! keys := on_primary (storage_list_keys now pattern) in
  let! sec := gets has_secondary in
  if sec : bool then
    let! more := on_secondary (storage_list_keys now pattern) in
    ret (remove_dups (keys ++ more)%list)
  else ret (remove_dups keys).

Definition append_to_list (now : Time) (key : string) (value : Value)
  : M t unit :=
  let! _ := on_primary (storage_append_to_list now key value) in
  let! sec := gets has_secondary in
  let! sync := gets sync_enabled in
  if sec && sync then on_secondary (storage_append_to_list now key value)
  else ret tt.

Definition get_list (now : Time) (key : string) (start end_ : Z)
  : M t (list Value) :=
  let! values := on_primary (storage_get_list now key start end_) in
  let! sec := gets has_secondary in
  match values with
  | [] => if sec : bool
          then on_secondary (storage_get_list now key start end_)
          else ret values
  | _ :: _ => ret values
  end.
End Hybrid.
Arguments t : clear implicits.
End HybridStorage.

#[export] Instance HybridStorage_backend {P S} `{IStorageBackend P} `{IStorageBackend S}
  : IStorageBackend (HybridStorage.t P S) := {
  storage_get := HybridStorage.get;
  storage_set := HybridStorage.set;
  storage_delete := HybridStorage.delete;
  storage_exists := HybridStorage.exists_;
  storage_list_keys := HybridStorage.list_keys;
  storage_append_to_list := HybridStorage.append_to_list;
  storage_get_list := HybridStorage.get_list
}.

(** ** The routing engine ([routing/router.py]) *)

(** [core/interfaces.py], class [RoutingDecision]. *)
Record RoutingDecision := {
  should_process : bool;
  rd_conversation_id : Value;
  create_new_conversation : bool;
  reason : string;
  rd_metadata : gmap string Scalar
}.

(** A rule holds two Python callables.  A call either returns or raises;
    the value a condition returns is tested for truthiness, and an action
    may return [None]. *)
Record RoutingRule := {
  name : string;
  condition : Message -> result Value;
  action : Message -> result (option RoutingDecision);
  priority : Z
}.

Module MessageRouter.

(** [list.sort(key=lambda r: r.priority, reverse=True)]: the sort is
    stable, so among rules of equal priority the one that came first in
    the list stays first. *)
Fixpoint insert_rule (r : RoutingRule) (l : list RoutingRule) : list RoutingRule :=
  match l with
  | [] => [r]
  | x :: l' =>
      if Z.leb (priority x) (priority r) then r :: x :: l'
      else x :: insert_rule r l'
  end.

Definition sort_by_priority (l : list RoutingRule) : list RoutingRule :=
  foldr insert_rule [] l.

Definition add_rule (rule : RoutingRule) (rules : list RoutingRule)
  : list RoutingRule :=
  sort_by_priority (rules ++ [rule])%list.

Definition ignore_system : RoutingRule := {|
  name := "ignore_system";
  condition := fun msg =>
    Ok (Plain (default (PyBool false) (metadata msg !! "is_system")));
  action := fun msg =>
    Ok (Some {| should_process := false;
                rd_conversation_id := PyNone;
                create_new_conversation := false;
                reason := "System message ignored";
                rd_metadata := ∅ |});
  priority := 100
|}.

Definition existing_conversation : RoutingRule := {|
  name := "existing_conversation";
  condition := fun msg =>
    Ok (Plain (PyBool (negb (is_None
         (default PyNone (metadata msg !! "reply_to_conversation"))))));
  action := fun msg =>
    Ok (Some {| should_process := true;
                rd_conversation_id :=
                  default PyNone (metadata msg !! "reply_to_conversation");
                create_new_conversation := false;
                reason := "Continuing existing conversation";
                rd_metadata := ∅ |});
  priority := 90
|}.

Definition _initialize_default_rules (rules : list RoutingRule)
  : list RoutingRule :=
  add_rule existing_conversation (add_rule ignore_system rules).

(** [__init__]: the rule list of a fresh router. *)
Definition init : list RoutingRule := _initialize_default_rules [].


(** The loop [for rule in self.rules] of [route]: [Ok (Some d)] when a
    rule returns the decision [d], [Ok None] when the loop ends. *)
Fixpoint eval_rules (rules : list RoutingRule) (message : Message)
  : result (option RoutingDecision) :=
  match rules with
  | [] => Ok None
  | rule :: rest =>
      match condition rule message with
      | Raise e => Raise e
      | Ok c =>
          if truthy c then
            match action rule message with
            | Raise e => Raise e
            | Ok (Some decision) => Ok (Some decision)
            | Ok None => eval_rules rest message
            end
          else eval_rules rest message
      end
  end.

(** [datetime.fromisoformat]. *)
Definition fromisoformat (v : Value) : result Time :=
  match v with
  | IsoTime t => Ok t
  | Plain (PyStr s) => Raise (ValueError ("Invalid isoformat string: " ++ s))
  | ContextJson _ => Raise (ValueError "Invalid isoformat string")
  | _ => Raise (TypeError "fromisoformat: argument must be str")
  end.

Definition _should_start_conversation (message : Message) : bool :=
  let content_lower := lower (content message) in
  if (startswith "hi" content_lower || startswith "hello" content_lower
      || startswith "hey" content_lower || startswith "start" content_lower)
  then true
  else if (startswith "help" content_lower || startswith "assist" content_lower)
  then true
  else if (contains "new conversation" content_lower
           || contains "new chat" content_lower)
  then true
  else if scalar_truthy
            (default (PyBool false) (metadata message !! "start_conversation"))
  then true
  else strip_nonempty (content message).

Section Router.
Context {S : Type} `{IStorageBackend S}.

Definition _find_active_conversation (now : Time) (sender_id : string)
  : M S Value :=
  let key := "active_conversations:" ++ sender_id in
  let! conversations := storage_get_list now key 0 (-1) in
  match last conversations with
  | Some c => ret c
  | None => ret (Plain PyNone)
  end.

Definition _is_conversation_active (now : Time) (conversation_id : Value)
  : M S bool :=
  let key := "conversation:" ++ py_str conversation_id ++ ":last_activity" in
  let! last_activity := storage_get now key in
  if truthy last_activity then
    match fromisoformat last_activity with
    | Ok last_time => ret (Z.ltb (now - last_time) 1800)
    | Raise e => raise e
    end
  else ret false.

(** The body of the [try] block of [route]. *)
Definition route_body (rules : list RoutingRule) (now : Time)
    (message : Message) : M S RoutingDecision :=
  let! existing_conversation_id :=
    _find_active_conversation now (sender_id message) in
  match eval_rules rules message with
  | Raise e => raise e
  | Ok (Some decision) => ret decision
  | Ok None =>
      let! is_active :=
        (if truthy existing_conversation_id
         then _is_conversation_active now existing_conversation_id
         else ret false) in
      if is_active : bool then
        ret {| should_process := true;
               rd_conversation_id := existing_conversation_id;
               create_new_conversation := false;
               reason := "Continuing active conversation";
               rd_metadata := ∅ |}
      else if _should_start_conversation message then
        ret {| should_process := true;
               rd_conversation_id := PyNone;
               create_new_conversation := true;
               reason := "Starting new conversation";
               rd_metadata := ∅ |}
      else
        ret {| should_process := false;
               rd_conversation_id := PyNone;
               create_new_conversation := false;
               reason := "No routing rule matched";
               rd_metadata := ∅ |}
  end.

(** [route]: every exception of the body becomes a declining decision,
    so [route] itself never raises. *)
Definition route (rules : list RoutingRule) (now : Time)
    (message : Message) (st : S) : RoutingDecision * S :=
  match route_body rules now message st with
  | (Ok decision, st') => (decision, st')
  | (Raise e, st') =>
      ({| should_process := false;
          rd_conversation_id := PyNone;
          create_new_conversation := false;
          reason := "Routing error: " ++ exn_str e;
          rd_metadata := ∅ |}, st')
  end.
End Router.
End MessageRouter.

(** ** The conversation store ([conversation/manager.py]) *)

Module ConversationManager.

(** [json.dumps] of the context dictionary; metadata that holds an
    arbitrary object cannot be serialised. *)
Definition _serialize_context (context : ConversationContext) : result Value :=
  if bool_decide (map_Forall (fun _ v => json_serializable (Plain v) = true)
                             (ctx_metadata context))
  then Ok (ContextJson context)
  else Raise (TypeError "Object is not JSON serializable").

Definition _deserialize_context (data : Value) : result ConversationContext :=
  match data with
  | ContextJson c => Ok c
  | Plain (PyStr _) => Raise JSONDecodeError
  | IsoTime _ => Raise JSONDecodeError
  | _ => Raise (TypeError "object is not subscriptable")
  end.

(** [context.is_active = False; context.updated_at = datetime.now()]. *)
Definition closed (now : Time) (context : ConversationContext)
  : ConversationContext :=
  {| ctx_conversation_id := ctx_conversation_id context;
     participant_ids := participant_ids context;
     created_at := created_at context;
     updated_at := now;
     ctx_metadata := ctx_metadata context;
     is_active := false;
     agent_id := agent_id context;
     agent_persona := agent_persona context |}.

Definition lift_result {S A} (r : result A) : M S A :=
  match r with
  | Ok a => ret a
  | Raise e => raise e
  end.

Section Manager.
Context {S : Type} `{IStorageBackend S}.

Definition get_conversation (now : Time) (conversation_id : Value)
  : M S (option ConversationContext) :=
  let! data :=
    storage_get now ("conversation:" ++ py_str conversation_id ++ ":context") in
  if truthy data then
    let! c := lift_result (_deserialize_context data) in
    ret (Some c)
  else ret None.

Definition _save_conversation_context (now : Time)
    (context : ConversationContext) : M S unit :=
  let! data := lift_result (_serialize_context context) in
  storage_set now
    ("conversation:" ++ ctx_conversation_id context ++ ":context") data None.

Definition close_conversation (now : Time) (conversation_id : Value)
  : M S unit :=
  let! context := get_conversation now conversation_id in
  match context with
  | None =>
      raise (ValueError
               ("Conversation " ++ py_str conversation_id ++ " not found"))
  | Some context =>
      let context := closed now context in
      let! _ := _save_conversation_context now context in
      for_each (participant_ids context) (fun participant_id =>
        storage_delete now ("active_conversations:" ++ participant_id))
  end.
End Manager.
End ConversationManager.

(** ** The interceptor pipeline ([interceptor/message_interceptor.py]) *)

(** The collaborators of the pipeline are given by their interfaces
    ([core/interfaces.py]).  They are separate objects that may share
    state (the router and the conversation store of the entry points hold
    the same storage object), so all of them act on one world [W]. *)
Record IMessageRouter (W : Type) := {
  router_route : Time -> Message -> M W RoutingDecision
}.

Record IConversationManager (W : Type) := {
  manager_create_conversation :
    Time -> Message -> gmap string Scalar -> M W ConversationContext;
  manager_get_conversation : Time -> Value -> M W (option ConversationContext);
  manager_update_conversation : Time -> string -> Message -> M W unit
}.

Record IAgent (W : Type) := {
  process_message : Time -> Message -> ConversationContext -> M W (option Message)
}.

Arguments router_route {W}.
Arguments manager_create_conversation {W}.
Arguments manager_get_conversation {W}.
Arguments manager_update_conversation {W}.
Arguments process_message {W}.

(** [message.status = s] and [message.conversation_id = c]. *)
Definition with_status (s : MessageStatus) (m : Message) : Message :=
  {| msg_id := msg_id m; sender_id := sender_id m;
     recipient_id := recipient_id m; content := content m;
     msg_type := msg_type m; timestamp := timestamp m;
     metadata := metadata m; status := s;
     conversation_id := conversation_id m |}.

Definition with_conversation_id (c : string) (m : Message) : Message :=
  {| msg_id := msg_id m; sender_id := sender_id m;
     recipient_id := recipient_id m; content := content m;
     msg_type := msg_type m; timestamp := timestamp m;
     metadata := metadata m; status := status m;
     conversation_id := Some c |}.

Module MessageInterceptor.
Section Interceptor.
Context {W : Type}.

Record t := {
  router : IMessageRouter W;
  conversation_manager : IConversationManager W;
  default_agent : option (IAgent W);
  agents : gmap string (IAgent W);
  _pre_processors : list (Message -> M W Message);
  _post_processors : list (Message -> M W Message)
}.

(** The state of a running [intercept]: the object bound to the local
    variable [message], and the world. *)
Definition frame : Type := Message * W.

Definition world {A} (op : M W A) : M frame A :=
  fun f => let (r, w) := op (snd f) in (r, (fst f, w)).

Definition current : M frame Message := gets fst.

Definition rebind (m : Message) : M frame unit :=
  modify (fun f => (m, snd f)).

Definition set_status (s : MessageStatus) : M frame unit :=
  modify (fun f => (with_status s (fst f), snd f)).

Definition set_conversation_id (c : string) : M frame unit :=
  modify (fun f => (with_conversation_id c (fst f), snd f)).

(** [message = processor(message)]. *)
Definition apply_processor (processor : Message -> M W Message)
  : M frame unit :=
  let! message := current in
  let! message' := world (processor message) in
  rebind message'.

Definition _select_agent (ic : t) (conversation : ConversationContext)
  : option (IAgent W) :=
  match agent_id conversation with
  | Some a =>
      if negb (String.eqb a "") then
        match agents ic !! a with
        | Some agent => Some agent
        | None => default_agent ic
        end
      else default_agent ic
  | None => default_agent ic
  end.

(** Running a list of processors over a message, in registration
    order. *)
Fixpoint run_processors (ps : list (Message -> M W Message)) (m : Message)
  : M W Message :=
  match ps with
  | [] => ret m
  | p :: ps' => let! m' := p m in run_processors ps' m'
  end.

(** The part of [intercept] that follows the resolution of the
    conversation. *)
Definition process_in (ic : t) (now : Time)
    (conversation : ConversationContext) : M frame (option Message) :=
  let! _ := set_status PROCESSING in
  match _select_agent ic conversation with
  | None =>
      let! _ := set_status FAILED in
      ret None
  | Some agent =>
      let! message := current in
      let! response := world (process_message agent now message conversation) in
      let! _ := world (manager_update_conversation (conversation_manager ic)
                         now (ctx_conversation_id conversation) message) in
      let! _ := (match response with
                 | Some r =>
                     world (manager_update_conversation (conversation_manager ic)
                              now (ctx_conversation_id conversation) r)
                 | None => ret tt
                 end) in
      let! _ := set_status PROCESSED in
      match response with
      | Some r =>
          let! r' := world (run_processors (_post_processors ic) r) in
          ret (Some r')
      | None => ret None
      end
  end.

(** The body of the [try] block of [intercept]. *)
Definition intercept_body (ic : t) (now : Time) : M frame (option Message) :=
  let! _ := for_each (_pre_processors ic) apply_processor in
  let! _ := set_status QUEUED in
  let! message := current in
  let! routing_decision := world (router_route (router ic) now message) in
  if negb (should_process routing_decision) then
    let! _ := set_status IGNORED in
    ret None
  else if create_new_conversation routing_decision then
    let! conversation :=
      world (manager_create_conversation (conversation_manager ic)
               now message (rd_metadata routing_decision)) in
    let! _ := set_conversation_id (ctx_conversation_id conversation) in
    process_in ic now conversation
  else if truthy (rd_conversation_id routing_decision) then
    let! conversation :=
      world (manager_get_conversation (conversation_manager ic)
               now (rd_conversation_id routing_decision)) in
    match conversation with
    | None =>
        let! _ := set_status FAILED in
        ret None
    | Some conversation =>
        let! _ := set_conversation_id (ctx_conversation_id conversation) in
        process_in ic now conversation
    end
  else
    let! _ := set_status FAILED in
    ret None.

(** [intercept]: the outcome, the message object as the call leaves
    it, and the world. *)
Definition intercept (ic : t) (now : Time) (message : Message) (w : W)
  : result (option Message) * (Message * W) :=
  try_except (intercept_body ic now)
    (fun e => let! _ := set_status FAILED in raise e)
    (message, w).
End Interceptor.
Arguments t : clear implicits.
End MessageInterceptor.

(** ** The conversation store: creating and updating conversations *)

(** The other methods of [ConversationManager].  The identifier that
    [uuid.uuid4()] draws is an argument of [create_conversation], and
    [json.dumps(message.to_dict())], which returns a text or raises, is a
    parameter of the section. *)
Module ConversationLifecycle.
Section Lifecycle.
Context {S : Type} `{IStorageBackend S}.
Variable json_dumps_message : Message -> result string.

Definition _save_message (now : Time) (conversation_id : Value)
    (message : Message) : M S unit :=
  let! text := ConversationManager.lift_result (json_dumps_message message) in
  storage_append_to_list now
    ("conversation:" ++ py_str conversation_id ++ ":messages")
    (Plain (PyStr text)).

Definition _update_last_activity (now : Time) (conversation_id : Value)
  : M S unit :=
  storage_set now
    ("conversation:" ++ py_str conversation_id ++ ":last_activity")
    (IsoTime now) None.

(** [metadata.get(k) if metadata else None], for the two fields of the
    context that hold an optional string. *)
Definition metadata_str (metadata : gmap string Scalar) (k : string)
  : option string :=
  match metadata !! k with
  | Some (PyStr s) => Some s
  | _ => None
  end.

(** The context that [create_conversation] builds. *)
Definition new_context (now : Time) (conversation_id : string)
    (initial_message : Message) (metadata : gmap string Scalar)
  : ConversationContext :=
  {| ctx_conversation_id := conversation_id;
     participant_ids := [sender_id initial_message; recipient_id initial_message];
     created_at := now;
     updated_at := now;
     ctx_metadata := metadata;
     is_active := true;
     agent_id := metadata_str metadata "agent_id";
     agent_persona := metadata_str metadata "agent_persona" |}.

Definition create_conversation (now : Time) (conversation_id : string)
    (initial_message : Message) (metadata : gmap string Scalar)
  : M S ConversationContext :=
  let context := new_context now conversation_id initial_message metadata in
  let! _ := ConversationManager._save_conversation_context now context in
  let! _ := storage_append_to_list now
              ("active_conversations:" ++ sender_id initial_message)
              (Plain (PyStr conversation_id)) in
  let! _ := _save_message now (Plain (PyStr conversation_id)) initial_message in
  let! _ := _update_last_activity now (Plain (PyStr conversation_id)) in
  ret context.

(** [context.updated_at = datetime.now()]. *)
Definition touched (now : Time) (context : ConversationContext)
  : ConversationContext :=
  {| ctx_conversation_id := ctx_conversation_id context;
     participant_ids := participant_ids context;
     created_at := created_at context;
     updated_at := now;
     ctx_metadata := ctx_metadata context;
     is_active := is_active context;
     agent_id := agent_id context;
     agent_persona := agent_persona context |}.

Definition update_conversation (now : Time) (conversation_id : Value)
    (message : Message) : M S unit :=
  let! context := ConversationManager.get_conversation now conversation_id in
  match context with
  | None =>
      raise (ValueError
               ("Conversation " ++ py_str conversation_id ++ " not found"))
  | Some context =>
      let context := touched now context in
      let! _ := ConversationManager._save_conversation_context now context in
      let! _ := _save_message now conversation_id message in
      _update_last_activity now conversation_id
  end.
End Lifecycle.
End ConversationLifecycle.

(** [get_conversation_history]: [Message.from_dict(json.loads(data))],
    which returns a message or raises, is a parameter of the section; an
    entry on which it raises is logged and left out. *)
Module ConversationHistory.
Section History.
Context {S : Type} `{IStorageBackend S}.
Variable message_of_json : Value -> result Message.


End History.
End ConversationHistory.

(** The registration methods of the pipeline
    ([register_agent], [add_pre_processor], [add_post_processor]). *)
Module MessageInterceptorSetup.
Section Setup.
Context {W : Type}.

Definition register_agent (agent_id : string) (agent : IAgent W)
    (ic : MessageInterceptor.t W) : MessageInterceptor.t W :=
  {| MessageInterceptor.router := MessageInterceptor.router ic;
     MessageInterceptor.conversation_manager :=
       MessageInterceptor.conversation_manager ic;
     MessageInterceptor.default_agent := MessageInterceptor.default_agent ic;
     MessageInterceptor.agents := <[agent_id := agent]> (MessageInterceptor.agents ic);
     MessageInterceptor._pre_processors := MessageInterceptor._pre_processors ic;
     MessageInterceptor._post_processors := MessageInterceptor._post_processors ic |}.

Definition add_pre_processor (processor : Message -> M W Message)
    (ic : MessageInterceptor.t W) : MessageInterceptor.t W :=
  {| MessageInterceptor.router := MessageInterceptor.router ic;
     MessageInterceptor.conversation_manager :=
       MessageInterceptor.conversation_manager ic;
     MessageInterceptor.default_agent := MessageInterceptor.default_agent ic;
     MessageInterceptor.agents := MessageInterceptor.agents ic;
     MessageInterceptor._pre_processors :=
       MessageInterceptor._pre_processors ic ++ [processor];
     MessageInterceptor._post_processors := MessageInterceptor._post_processors ic |}.

Definition add_post_processor (processor : Message -> M W Message)
    (ic : MessageInterceptor.t W) : MessageInterceptor.t W :=
  {| MessageInterceptor.router := MessageInterceptor.router ic;
     MessageInterceptor.conversation_manager :=
       MessageInterceptor.conversation_manager ic;
     MessageInterceptor.default_agent := MessageInterceptor.default_agent ic;
     MessageInterceptor.agents := MessageInterceptor.agents ic;
     MessageInterceptor._pre_processors := MessageInterceptor._pre_processors ic;
     MessageInterceptor._post_processors :=
       MessageInterceptor._post_processors ic ++ [processor] |}.
End Setup.
End MessageInterceptorSetup.

(** [CustomizableRouter.add_keyword_rule] ([routing/router.py]).  The text
    of the list of keywords in the reason, [f"{keywords}"], is a parameter
    of the section.  The list of keywords is given by its first element
    and the others: the method reads [keywords[0]] for the name of the
    rule, and raises before it adds anything when the list is empty. *)
Module CustomizableRouter.
Section KeywordRules.
Variable repr_keywords : list string -> string.

Definition keyword_condition (keywords : list string) (msg : Message)
  : result Value :=
  let content_lower := lower (content msg) in
  Ok (Plain (PyBool
    (existsb (fun keyword => contains (lower keyword) content_lower) keywords))).

Definition keyword_action (keywords : list string) (conversation_id : Value)
    (create_new : bool) (msg : Message) : result (option RoutingDecision) :=
  Ok (Some {| should_process := true;
              rd_conversation_id := conversation_id;
              create_new_conversation := create_new;
              reason := "Keyword match: " ++ repr_keywords keywords;
              rd_metadata := ∅ |}).

Definition keyword_rule (first : string) (others : list string)
    (conversation_id : Value) (create_new : bool) (priority : Z) : RoutingRule :=
  {| name := "keyword_rule_" ++ first;
     condition := keyword_condition (first :: others);
     action := keyword_action (first :: others) conversation_id create_new;
     priority := priority |}.

Definition add_keyword_rule (first : string) (others : list string)
    (conversation_id : Value) (create_new : bool) (priority : Z)
    (rules : list RoutingRule) : list RoutingRule :=
  MessageRouter.add_rule
    (keyword_rule first others conversation_id create_new priority) rules.
End KeywordRules.
End CustomizableRouter.

(** The key of the message history of a conversation. *)
Definition messages_key (conversation_id : Value) : string :=
  "conversation:" ++ py_str conversation_id ++ ":messages".

(** ** Predicates used in the statements *)

(** What one iteration of the rule loop of [route] does with one rule:
    [Ok (Some d)] when the rule fires with the decision [d], [Ok None]
    when the loop goes on to the next rule. *)
Definition rule_outcome (rule : RoutingRule) (message : Message)
  : result (option RoutingDecision) :=
  MessageRouter.eval_rules [rule] message.



(** The rule list of a router on which the rules [custom] were registered,
    in that order, after construction. *)
Definition registered (custom : list RoutingRule) : list RoutingRule :=
  foldl (fun rules r => MessageRouter.add_rule r rules) MessageRouter.init custom.



(** The value that [get] reads for [key] in a file-backed store when the
    key is not expired. *)
Definition stored_value (p : LocalFileStorage.t) (key : string) : Value :=
  match LocalFileStorage.files p !! LocalFileStorage._get_file_path key with
  | Some data => LocalFileStorage.data_value data
  | None => Plain PyNone
  end.





(** The storage keys of the conversation store. *)
Definition context_key (conversation_id : string) : string :=
  "conversation:" ++ conversation_id ++ ":context".

Definition active_key (participant_id : string) : string :=
  "active_conversations:" ++ participant_id.

(** The metadata of a context holds nothing that [json.dumps] refuses. *)
Definition serializable_context (c : ConversationContext) : Prop :=
  map_Forall (fun _ v => json_serializable (Plain v) = true) (ctx_metadata c).

(** Concrete stores used in the examples below. *)

(** A key written with a TTL of 5 seconds at time 0 and written again,
    without TTL, at time 1. *)
Definition rewritten_store : LocalFileStorage.t :=
  snd (LocalFileStorage.set 1 "session" (PyStr "second") None
         (snd (LocalFileStorage.set 0 "session" (PyStr "first") (Some 5)
                 LocalFileStorage.empty))).

(** A key written at time 0 with [ttl=0]. *)
Definition zero_ttl_store : LocalFileStorage.t :=
  snd (LocalFileStorage.set 0 "k" (PyStr "v") (Some 0) LocalFileStorage.empty).

(** The list of active conversations of the participant [u1], as
    [create_conversation] writes it. *)
Definition active_list_store : LocalFileStorage.t :=
  snd (LocalFileStorage.append_to_list 0 "active_conversations:u1" (PyStr "c1")
         LocalFileStorage.empty).


(** A custom rule of priority 50 that sends every message to a new
    conversation, and the same rule at priority 200. *)
Definition new_conversation_decision : RoutingDecision :=
  {| should_process := true;
     rd_conversation_id := PyNone;
     create_new_conversation := true;
     reason := "custom";
     rd_metadata := ∅ |}.

Definition greedy_rule (p : Z) : RoutingRule :=
  {| name := "greedy";
     condition := fun _ => Ok (Plain (PyBool true));
     action := fun _ => Ok (Some new_conversation_decision);
     priority := p |}.

(** The message [{sender: "sys", metadata: {is_system: true}}]. *)
Definition system_message : Message :=
  {| msg_id := "m1"; sender_id := "sys"; recipient_id := "bot";
     content := "hello"; msg_type := SYSTEM; timestamp := 0;
     metadata := {[ "is_system" := PyBool true ]};
     status := RECEIVED; conversation_id := None |}.


(** A primary that holds one scalar key. *)
Definition scalar_store : LocalFileStorage.t :=
  snd (LocalFileStorage.set 0 "a" (PyStr "x") None LocalFileStorage.empty).

(** The conversation [c1] between [u1] and [bot], stored while [u1] has
    two active conversations, [c1] and [c2]. *)
Definition context_c1 : ConversationContext :=
  {| ctx_conversation_id := "c1"; participant_ids := ["u1"; "bot"];
     created_at := 0; updated_at := 0; ctx_metadata := ∅;
     is_active := true; agent_id := None; agent_persona := None |}.

Definition two_conversations_store : LocalFileStorage.t :=
  snd (LocalFileStorage.append_to_list 2 "active_conversations:u1" (PyStr "c2")
    (snd (LocalFileStorage.append_to_list 1 "active_conversations:u1" (PyStr "c1")
      (snd (LocalFileStorage.set 0 "conversation:c1:context"
              (ContextJson context_c1) None LocalFileStorage.empty))))).

(** A pipeline over a trivial world: its router declines every message,
    its conversation store is empty, and it has no agent. *)
Definition declined : RoutingDecision :=
  {| should_process := false; rd_conversation_id := PyNone;
     create_new_conversation := false; reason := "declined";
     rd_metadata := ∅ |}.

Definition declining_pipeline : MessageInterceptor.t unit :=
  {| MessageInterceptor.router :=
       {| router_route := fun _ _ => ret declined |};
     MessageInterceptor.conversation_manager :=
       {| manager_create_conversation := fun _ _ _ =>
            raise (RuntimeError "no store");
          manager_get_conversation := fun _ _ => ret None;
          manager_update_conversation := fun _ _ _ => ret tt |};
     MessageInterceptor.default_agent := None;
     MessageInterceptor.agents := ∅;
     MessageInterceptor._pre_processors := [];
     MessageInterceptor._post_processors := [] |}.

(** The entries that [get_list] finds under [key] in a file-backed store:
    those of the list record, none when the list file is missing or holds
    something else. *)
Definition stored_list (st : LocalFileStorage.t) (key : string) : list Value :=
  match LocalFileStorage.files st !! LocalFileStorage._get_list_file_path key with
  | Some data => LocalFileStorage.data_values data
  | None => []
  end.


(** Two keys, one with a TTL of 5 seconds and one with a TTL of 50 seconds,
    both written at time 0. *)
Definition two_ttl_store : LocalFileStorage.t :=
  snd (LocalFileStorage.set 0 "long" (PyStr "l") (Some 50)
         (snd (LocalFileStorage.set 0 "short" (PyStr "s") (Some 5)
                 LocalFileStorage.empty))).

(** A store that holds the context of the conversation [42]. *)
Definition context_store : LocalFileStorage.t :=
  snd (LocalFileStorage.set 0 "conversation:42:context" (PyStr "ctx") None
         LocalFileStorage.empty).

(** The decisions that [route] builds itself. *)
Definition routing_error (e : exn) : RoutingDecision :=
  {| should_process := false;
     rd_conversation_id := PyNone;
     create_new_conversation := false;
     reason := "Routing error: " ++ exn_str e;
     rd_metadata := ∅ |}.

Definition continuing_existing (c : Value) : RoutingDecision :=
  {| should_process := true;
     rd_conversation_id := c;
     create_new_conversation := false;
     reason := "Continuing existing conversation";
     rd_metadata := ∅ |}.

Definition continuing_active (c : Value) : RoutingDecision :=
  {| should_process := true;
     rd_conversation_id := c;
     create_new_conversation := false;
     reason := "Continuing active conversation";
     rd_metadata := ∅ |}.

Definition starting_new : RoutingDecision :=
  {| should_process := true;
     rd_conversation_id := PyNone;
     create_new_conversation := true;
     reason := "Starting new conversation";
     rd_metadata := ∅ |}.

Definition no_rule_matched : RoutingDecision :=
  {| should_process := false;
     rd_conversation_id := PyNone;
     create_new_conversation := false;
     reason := "No routing rule matched";
     rd_metadata := ∅ |}.

(** [msg.metadata.get("reply_to_conversation")]. *)
Definition reply_to (m : Message) : Scalar :=
  default PyNone (metadata m !! "reply_to_conversation").

(** The key of the last-activity stamp of a conversation. *)
Definition last_activity_key (conversation_id : Value) : string :=
  "conversation:" ++ py_str conversation_id ++ ":last_activity".

(** A custom rule whose condition raises. *)
Definition broken_rule : RoutingRule :=
  {| name := "broken";
     condition := fun _ => Raise (AttributeError "'NoneType' object has no attribute 'lower'");
     action := fun _ => Ok None;
     priority := 95 |}.

(** Messages of the user [user_123]. *)
Definition user_message (text : string) (meta : gmap string Scalar) : Message :=
  {| msg_id := "m2"; sender_id := "user_123"; recipient_id := "bot";
     content := text; msg_type := TEXT; timestamp := 0;
     metadata := meta; status := RECEIVED; conversation_id := None |}.

(** A store in which [user_123] has the active conversation [c7], last
    active at time 1000. *)
Definition active_store : LocalFileStorage.t :=
  snd (LocalFileStorage.set 1000 "conversation:c7:last_activity" (IsoTime 1000) None
    (snd (LocalFileStorage.append_to_list 1000 "active_conversations:user_123"
            (PyStr "c7") LocalFileStorage.empty))).

(** A stand-in for [json.dumps(message.to_dict())] in the examples: the
    text of a message is its identifier; it is refused for a message
    without identifier. *)
Definition id_text (m : Message) : result string :=
  if String.eqb (msg_id m) "" then Raise (TypeError "not serializable")
  else Ok (msg_id m).



(** A pipeline over a trivial world whose router starts a new conversation
    for every message, whose store hands out the conversation [c1], whose
    default agent answers with the text of the message, and whose one
    post-processor signs the answer. *)
Definition echo_agent : IAgent unit :=
  {| process_message := fun _ m _ =>
       ret (Some (user_message (content m) ∅)) |}.

Definition sign (m : Message) : M unit Message :=
  ret (user_message (content m ++ " -- bot") ∅).

Definition echo_pipeline : MessageInterceptor.t unit :=
  {| MessageInterceptor.router :=
       {| router_route := fun _ _ => ret starting_new |};
     MessageInterceptor.conversation_manager :=
       {| manager_create_conversation := fun _ _ _ => ret context_c1;
          manager_get_conversation := fun _ _ => ret None;
          manager_update_conversation := fun _ _ _ => ret tt |};
     MessageInterceptor.default_agent := Some echo_agent;
     MessageInterceptor.agents := ∅;
     MessageInterceptor._pre_processors := [];
     MessageInterceptor._post_processors := [sign] |}.

(** A pre-processor that raises. *)
Definition failing_processor (m : Message) : M unit Message :=
  raise (RuntimeError "pre-processor failed").



(** Reduction of the projections of a hybrid store of file backends. *)
Ltac hybrid_step :=
  cbn [fst snd storage_get storage_set storage_delete storage_exists
       LocalFileStorage_backend HybridStorage.primary HybridStorage.secondary
       HybridStorage.sync_enabled is_None andb negb orb].

(** * Properties *)

Local Open Scope list_scope.

(** ** Examples *)
Example stem_json : stem "conversation_42_context.json" = "conversation_42_context".
Proof. reflexivity. Qed.

Example replace_list : replace "_list" "" "a_list_b_list" = "a_b".
Proof. reflexivity. Qed.

Example glob_star : glob "conversation_*_context.json" "conversation_42_context.json" = true.
Proof. reflexivity. Qed.

Example slice_tail : py_slice [1;2;3;4]%Z (-2) None = [3;4]%Z.
Proof. reflexivity. Qed.

Example set_get_roundtrip :
  let st := snd (LocalFileStorage.set 0 "a:b" (PyStr "v") None LocalFileStorage.empty) in
  fst (LocalFileStorage.get 5 "a:b" st) = Ok (Plain (PyStr "v")).
Proof. vm_compute. reflexivity. Qed.

Example list_keys_example :
  let st := snd (LocalFileStorage.set 0 "conversation:42:context" (PyStr "v") None LocalFileStorage.empty) in
  fst (LocalFileStorage.list_keys 5 "conversation:*:context" st) = Ok ["conversation:42:context"].
Proof. vm_compute. reflexivity. Qed.


(** ** The routing engine *)

Section RouterFacts.
Import MessageRouter.

Lemma insert_rule_perm r l : insert_rule r l ≡ₚ r :: l.
Proof.
  induction l as [|x l IH]; simpl; [done|].
  destruct (Z.leb (priority x) (priority r)); [done|].
  rewrite IH. apply Permutation_swap.
Qed.

Lemma sort_by_priority_perm l : sort_by_priority l ≡ₚ l.
Proof.
  induction l as [|x l IH]; simpl; [done|].
  rewrite insert_rule_perm. by rewrite IH.
Qed.





Lemma insert_rule_head r l :
  Forall (fun x => priority x <= priority r) l -> insert_rule r l = r :: l.
Proof.
  destruct 1 as [|x l Hx _]; simpl; [done|].
  by rewrite (proj2 (Z.leb_le _ _) Hx).
Qed.

Lemma add_rule_keeps_head h tl r :
  Forall (fun x => priority x <= priority h) tl ->
  priority r <= priority h ->
  add_rule r (h :: tl) = h :: add_rule r tl.
Proof.
  intros Htl Hr. unfold add_rule. simpl.
  apply insert_rule_head. rewrite sort_by_priority_perm.
  apply Forall_app; split; [done|]. by constructor.
Qed.



End RouterFacts.

(** ** The file backend: reads *)

Section FileReads.
Import LocalFileStorage.

(** [get_list] catches every exception and writes nothing. *)
Lemma get_list_reads now key a b st :
  exists l, get_list now key a b st = (Ok l, st).
Proof.
  unfold get_list, bind, gets, try_except, read_json, ret.
  destruct (path_exists _ st); simpl; [|by eexists].
  destruct (files st !! _) as [[v ttl|vs|]|]; simpl;
    try destruct (Z.eqb b (-1)); by eexists.
Qed.

Lemma find_active_conversation_reads now sender (st : LocalFileStorage.t) :
  exists c, MessageRouter._find_active_conversation now sender st = (Ok c, st).
Proof.
  unfold MessageRouter._find_active_conversation, bind. simpl.
  destruct (get_list_reads now ("active_conversations:" ++ sender)%string 0 (-1) st)
    as [l ->].
  destruct (last l); by eexists.
Qed.
End FileReads.

Lemma route_of_fired_rule {S} `{IStorageBackend S} rules now m (st st' : S)
    existing d :
  MessageRouter._find_active_conversation now (sender_id m) st = (Ok existing, st') ->
  MessageRouter.eval_rules rules m = Ok (Some d) ->
  MessageRouter.route rules now m st = (d, st').
Proof.
  intros Hfind Heval.
  unfold MessageRouter.route, MessageRouter.route_body, bind.
  by rewrite Hfind, Heval.
Qed.



(** ** The file backend: writes, deletion and expiry *)

Section FileFacts.
Import LocalFileStorage.

Lemma file_path_ne_list_file_path key :
  _get_file_path key <> _get_list_file_path key.
Proof.
  unfold _get_file_path, _get_list_file_path. intros Heq.
  apply String.app_inj in Heq. discriminate.
Qed.

Lemma path_exists_true path st :
  path_exists path st = true <-> is_Some (files st !! path).
Proof. unfold path_exists. apply bool_decide_eq_true. Qed.

Lemma path_exists_false path st :
  path_exists path st = false <-> files st !! path = None.
Proof.
  unfold path_exists. rewrite bool_decide_eq_false.
  rewrite <- eq_None_not_Some. done.
Qed.

(** What [set] does, case by case. *)
Lemma set_unfold now key value ttl st :
  set now key value ttl st =
    if decide (_get_file_path key ∈ faulty st)
    then (Raise (OSError (_get_file_path key)), st)
    else if json_serializable value
    then (Ok tt,
          let st1 :=
            with_files (<[_get_file_path key := ScalarRecord value ttl]>) st in
          if ttl_given ttl
          then with_registry (<[key := now + default 0 ttl]>) st1
          else st1)
    else (Raise (TypeError "Object is not JSON serializable"),
          with_files (<[_get_file_path key := Unreadable]>) st).
Proof.
  unfold set, try_except, bind, write_json, modify, ret, raise.
  destruct (decide _); [done|].
  destruct (json_serializable value); [|done].
  by destruct (ttl_given ttl).
Qed.

Lemma set_ok_inv now key value ttl st st' :
  set now key value ttl st = (Ok tt, st') ->
  (_get_file_path key ∉ faulty st)
  /\ json_serializable value = true
  /\ faulty st' = faulty st
  /\ files st' = <[_get_file_path key := ScalarRecord value ttl]> (files st)
  /\ _ttl_registry st' =
       (if ttl_given ttl then <[key := now + default 0 ttl]> (_ttl_registry st)
        else _ttl_registry st).
Proof.
  rewrite set_unfold.
  destruct (decide _); [done|].
  destruct (json_serializable value); [|done].
  intros [= <-]. by destruct (ttl_given ttl).
Qed.

(** A [set] without [ttl] never touches the expiry registry. *)
Lemma set_no_ttl_registry now key value st :
  _ttl_registry (snd (set now key value None st)) = _ttl_registry st.
Proof.
  rewrite set_unfold. simpl.
  destruct (decide _); [done|]. by destruct (json_serializable value).
Qed.

(** [delete] swallows every exception. *)
Lemma delete_returns now key st : fst (delete now key st) = Ok tt.
Proof.
  unfold delete, try_except, bind, gets, modify, unlink, ret.
  destruct (path_exists (_get_file_path key) st); simpl.
  - destruct (decide _); simpl; [done|].
    destruct (path_exists (_get_list_file_path key) _); simpl; [|done].
    by destruct (decide _).
  - destruct (path_exists (_get_list_file_path key) _); simpl; [|done].
    by destruct (decide _).
Qed.

(** What [delete] leaves behind when the scalar file can be unlinked:
    the scalar record is gone, and either the key is out of the registry
    together with its list record, or the registry is as before. *)
Lemma delete_effect now key st :
  _get_file_path key ∉ faulty st ->
  let st' := snd (delete now key st) in
  faulty st' = faulty st
  /\ files st' !! _get_file_path key = None
  /\ ((_ttl_registry st' !! key = None
       /\ files st' !! _get_list_file_path key = None)
      \/ _ttl_registry st' = _ttl_registry st).
Proof.
  intros Hok. pose proof (file_path_ne_list_file_path key) as Hne.
  unfold delete, try_except, bind, gets, modify, unlink, ret.
  destruct (path_exists (_get_file_path key) st) eqn:E1; simpl.
  - destruct (decide _); [done|]. simpl.
    destruct (path_exists (_get_list_file_path key) _) eqn:E2; simpl.
    + destruct (decide _); simpl.
      * split; [done|]. split; [by rewrite lookup_delete_eq|]. by right.
      * split; [done|]. split.
        { rewrite lookup_delete_ne by done. by rewrite lookup_delete_eq. }
        left. split; by rewrite lookup_delete_eq.
    + apply path_exists_false in E2. simpl in E2.
      split; [done|]. split; [by rewrite lookup_delete_eq|].
      left. split; [by rewrite lookup_delete_eq|done].
  - apply path_exists_false in E1.
    destruct (path_exists (_get_list_file_path key) _) eqn:E2; simpl.
    + destruct (decide _); simpl.
      * split; [done|]. split; [done|]. by right.
      * split; [done|]. split; [by rewrite lookup_delete_ne|].
        left. split; by rewrite lookup_delete_eq.
    + apply path_exists_false in E2.
      split; [done|]. split; [done|].
      left. split; [by rewrite lookup_delete_eq|done].
Qed.

(** On a healthy disk [delete] removes both records and the registry
    entry. *)
Lemma delete_healthy now key st :
  faulty st = ∅ ->
  delete now key st =
    (Ok tt,
     {| files := base.delete (_get_list_file_path key)
                   (base.delete (_get_file_path key) (files st));
        _ttl_registry := base.delete key (_ttl_registry st);
        faulty := ∅ |}).
Proof.
  intros Hf. destruct st as [fs reg flt]. simpl in Hf. subst flt.
  unfold delete, try_except, bind, gets, modify, unlink, ret, with_files,
    with_registry.
  destruct (path_exists (_get_file_path key) _) eqn:E1; simpl.
  - destruct (decide _) as [Hin|_]; [set_solver|]. simpl.
    destruct (path_exists (_get_list_file_path key) _) eqn:E2; simpl.
    + destruct (decide _) as [Hin|_]; [set_solver|]. done.
    + apply path_exists_false in E2. simpl in E2.
      by rewrite (delete_id _ _ E2).
  - apply path_exists_false in E1. simpl in E1.
    rewrite (delete_id _ _ E1).
    destruct (path_exists (_get_list_file_path key) _) eqn:E2; simpl.
    + destruct (decide _) as [Hin|_]; [set_solver|]. done.
    + apply path_exists_false in E2. simpl in E2.
      by rewrite (delete_id _ _ E2).
Qed.


(** Reading a key that is not expired writes nothing. *)
Lemma get_not_expired now key st :
  _is_expired now key st = false ->
  get now key st =
    (Ok (match files st !! _get_file_path key with
         | Some data => data_value data
         | None => Plain PyNone
         end), st).
Proof.
  intros He. unfold get, bind, gets, ret, try_except, read_json.
  rewrite He. simpl.
  destruct (path_exists _ st) eqn:E; simpl.
  - destruct (files st !! _) as [[v ttl|vs|]|]; done.
  - apply path_exists_false in E. by rewrite E.
Qed.

Lemma get_expired now key st :
  _is_expired now key st = true ->
  get now key st = (Ok (Plain PyNone), snd (delete now key st)).
Proof.
  intros He. unfold get, bind, gets, ret. rewrite He.
  pose proof (delete_returns now key st) as Hd.
  destruct (delete now key st) as [r st']. simpl in *. by subst r.
Qed.

Lemma exists_expired now key st :
  _is_expired now key st = true ->
  exists_ now key st = (Ok false, snd (delete now key st)).
Proof.
  intros He. unfold exists_, bind, gets, ret. rewrite He.
  pose proof (delete_returns now key st) as Hd.
  destruct (delete now key st) as [r st']. simpl in *. by subst r.
Qed.

Lemma exists_not_expired now key st :
  _is_expired now key st = false ->
  exists_ now key st =
    (Ok (path_exists (_get_file_path key) st
         || path_exists (_get_list_file_path key) st), st).
Proof.
  intros He. unfold exists_, bind, gets, ret. by rewrite He.
Qed.
End FileFacts.

(** ** The file backend: the claims on [set], [get], [exists] and [list_keys] *)

(** C3. [set] without [ttl] does not clear a pending expiry: the key
    [session], written with [ttl=5] at time 0 and written again without
    [ttl] at time 1, keeps the expiry instant 5 in the registry; it is read
    back at time 3 and reported absent at time 10, where the claim has
    [get] return the second value at any later time. *)
Theorem set_without_ttl_keeps_pending_expiry :
  LocalFileStorage._ttl_registry rewritten_store !! "session" = Some 5
  /\ fst (LocalFileStorage.get 3 "session" rewritten_store)
     = Ok (Plain (PyStr "second"))
  /\ fst (LocalFileStorage.get 10 "session" rewritten_store)
     = Ok (Plain PyNone).
Proof. vm_compute. done. Qed.

(** C4, as stated, at [ttl=0]: the guard [if ttl:] takes a TTL of zero for
    no TTL, no expiry is registered, and the key is still read back, and
    still exists, long after the instant [now + 0]. *)
Lemma zero_ttl_never_expires :
  fst (LocalFileStorage.set 0 "k" (PyStr "v") (Some 0) LocalFileStorage.empty)
    = Ok tt
  /\ fst (LocalFileStorage.get 100 "k" zero_ttl_store) = Ok (Plain (PyStr "v"))
  /\ fst (LocalFileStorage.get 100 "k" zero_ttl_store) <> Ok (Plain PyNone)
  /\ fst (LocalFileStorage.exists_ 100 "k" zero_ttl_store) = Ok true.
Proof. vm_compute. done. Qed.

(** C4, amended. After a [set] of [key] with a TTL [n] other than zero at
    time [now]: up to the expiry instant [now + n] the value is read back
    and nothing is written; past it, [get] reports the key absent and
    [exists] reports false, either of them deletes the stored record of the
    key on the way, and every later [get] and [exists] still agree that the
    key is absent. *)
Theorem ttl_expiry_and_lazy_delete :
  forall (now : Time) (key : string) (value : Value) (n : Z)
         (st st1 : LocalFileStorage.t),
    LocalFileStorage.set now key value (Some n) st = (Ok tt, st1) ->
    n <> 0 ->
    (forall t, t <= now + n ->
       LocalFileStorage.get t key st1 = (Ok value, st1)
       /\ LocalFileStorage.exists_ t key st1 = (Ok true, st1))
    /\ (forall t, now + n < t ->
          exists st2,
            LocalFileStorage.get t key st1 = (Ok (Plain PyNone), st2)
            /\ LocalFileStorage.exists_ t key st1 = (Ok false, st2)
            /\ LocalFileStorage.files st2 !! LocalFileStorage._get_file_path key
               = None
            /\ (forall t', t <= t' ->
                  fst (LocalFileStorage.get t' key st2) = Ok (Plain PyNone)
                  /\ fst (LocalFileStorage.exists_ t' key st2) = Ok false)).
Proof.
  intros now key value n st st1 Hset Hn.
  apply set_ok_inv in Hset as (Hok & _ & Hflt & Hfiles & Hreg).
  assert (Hgiven : ttl_given (Some n) = true).
  { simpl. by destruct (Z.eqb_spec n 0). }
  rewrite Hgiven in Hreg. simpl in Hreg.
  assert (Hexp : forall t, LocalFileStorage._is_expired t key st1
                           = Z.ltb (now + n) t).
  { intros t. unfold LocalFileStorage._is_expired.
    by rewrite Hreg, lookup_insert_eq. }
  split.
  - intros t Ht.
    assert (He : LocalFileStorage._is_expired t key st1 = false).
    { rewrite Hexp. apply Z.ltb_ge. lia. }
    split.
    + rewrite (get_not_expired _ _ _ He), Hfiles, lookup_insert_eq. done.
    + rewrite (exists_not_expired _ _ _ He).
      assert (Hp : LocalFileStorage.path_exists
                     (LocalFileStorage._get_file_path key) st1 = true).
      { apply path_exists_true. rewrite Hfiles, lookup_insert_eq. by eexists. }
      by rewrite Hp.
  - intros t Ht.
    assert (He : LocalFileStorage._is_expired t key st1 = true).
    { rewrite Hexp. apply Z.ltb_lt. lia. }
    assert (Hok1 : LocalFileStorage._get_file_path key
                   ∉ LocalFileStorage.faulty st1) by (by rewrite Hflt).
    destruct (delete_effect t key st1 Hok1) as (_ & Hgone & Hrest).
    rewrite (get_expired _ _ _ He), (exists_expired _ _ _ He).
    remember (snd (LocalFileStorage.delete t key st1)) as st2 eqn:Hst2.
    clear Hst2. exists st2.
    split; [done|]. split; [done|]. split; [exact Hgone|].
    intros t' Ht'.
    destruct Hrest as [[Hnone Hlist]|Hsame].
    + assert (He2 : LocalFileStorage._is_expired t' key st2 = false).
      { unfold LocalFileStorage._is_expired. by rewrite Hnone. }
      rewrite (get_not_expired _ _ _ He2), (exists_not_expired _ _ _ He2), Hgone.
      split; [done|]. simpl.
      apply path_exists_false in Hgone, Hlist. by rewrite Hgone, Hlist.
    + assert (He2 : LocalFileStorage._is_expired t' key st2 = true).
      { unfold LocalFileStorage._is_expired.
        rewrite Hsame, Hreg, lookup_insert_eq. apply Z.ltb_lt. lia. }
      by rewrite (get_expired _ _ _ He2), (exists_expired _ _ _ He2).
Qed.

(** C5. [list_keys] does not give back the keys under which the values
    were stored: the key [active_conversations:u1] of the conversation
    store is listed as [active:conversations:u1], and, its list file
    matching both globs, it is listed twice. *)
Theorem list_keys_mangles_underscores :
  fst (LocalFileStorage.get_list 1 "active_conversations:u1" 0 (-1)
         active_list_store) = Ok [Plain (PyStr "c1")]
  /\ fst (LocalFileStorage.list_keys 1 "*" active_list_store)
     = Ok ["active:conversations:u1"; "active:conversations:u1"]
  /\ fst (LocalFileStorage.list_keys 1 "active_conversations:*" active_list_store)
     = Ok ["active:conversations:u1"; "active:conversations:u1"].
Proof. vm_compute. done. Qed.

(** ** The file backend: I/O and serialisation errors *)

Section FileErrors.
Import LocalFileStorage.

(** What [append_to_list] does, case by case. *)
Lemma append_to_list_unfold now key value st :
  append_to_list now key value st =
    let existing :=
      match files st !! _get_list_file_path key with
      | Some data => data_values data
      | None => []
      end in
    if decide (_get_list_file_path key ∈ faulty st)
    then (Raise (OSError (_get_list_file_path key)), st)
    else if json_serializable value
    then (Ok tt,
          with_files (<[_get_list_file_path key
                        := ListRecord (existing ++ [value])]>) st)
    else (Raise (TypeError "Object is not JSON serializable"),
          with_files (<[_get_list_file_path key := Unreadable]>) st).
Proof.
  unfold append_to_list, try_except, bind, gets, read_json, write_json, ret,
    raise.
  destruct (path_exists _ st) eqn:E; simpl.
  - destruct (files st !! _) as [[v ttl|vs|]|]; simpl;
      destruct (decide _); try done;
      by destruct (json_serializable value).
  - apply path_exists_false in E. rewrite E. simpl.
    destruct (decide _); [done|]. by destruct (json_serializable value).
Qed.
End FileErrors.



(** ** The hybrid backend: [get] *)


(** ** The hybrid backend: [migrate_to_secondary] *)

Section Migration.
Import LocalFileStorage.

Lemma list_keys_reads now pattern st :
  exists keys,
    list_keys now pattern st = (Ok keys, st)
    /\ (forall key, key ∈ keys -> _is_expired now key st = false).
Proof.
  unfold list_keys, bind, gets. simpl. eexists. split; [reflexivity|].
  intros key Hin. by apply list_elem_of_filter in Hin as [? _].
Qed.



Context {S : Type} `{IStorageBackend S}.

Abbreviation hybrid p s sync :=
  {| HybridStorage.primary := p; HybridStorage.secondary := Some s;
     HybridStorage.sync_enabled := sync |}.




End Migration.

Section MigrationTwice.
Import LocalFileStorage.

Variable p : LocalFileStorage.t.
Hypothesis no_lists :
  forall now key, fst (get_list now key 0 (-1) p) = Ok [].






End MigrationTwice.



(** ** The conversation store: [close_conversation] *)

Section CloseConversation.
Import LocalFileStorage.

Lemma context_path_head cid :
  exists rest, _get_file_path (context_key cid) = String "c" rest.
Proof. eexists. reflexivity. Qed.

Lemma active_path_head q :
  exists rest, _get_file_path (active_key q) = String "a" rest.
Proof. eexists. reflexivity. Qed.

Lemma active_list_path_head q :
  exists rest, _get_list_file_path (active_key q) = String "a" rest.
Proof. eexists. reflexivity. Qed.

Lemma context_path_ne_active cid q :
  _get_file_path (context_key cid) <> _get_file_path (active_key q)
  /\ _get_file_path (context_key cid) <> _get_list_file_path (active_key q)
  /\ context_key cid <> active_key q.
Proof.
  destruct (context_path_head cid) as [r1 ->].
  destruct (active_path_head q) as [r2 ->].
  destruct (active_list_path_head q) as [r3 ->].
  repeat split; discriminate.
Qed.

(** A conversation that [get_conversation] finds is a record of the
    store that is not expired; finding it changes nothing. *)
Lemma get_conversation_found now cid ctx (st : LocalFileStorage.t) :
  fst (ConversationManager.get_conversation now (Plain (PyStr cid)) st)
    = Ok (Some ctx) ->
  ConversationManager.get_conversation now (Plain (PyStr cid)) st
    = (Ok (Some ctx), st)
  /\ _is_expired now (context_key cid) st = false.
Proof.
  unfold ConversationManager.get_conversation, bind.
  change (storage_get now ("conversation:" ++ py_str (Plain (PyStr cid))
                           ++ ":context")%string st)
    with (get now (context_key cid) st).
  destruct (_is_expired now (context_key cid) st) eqn:He.
  - rewrite (get_expired _ _ _ He). simpl. discriminate.
  - rewrite (get_not_expired _ _ _ He).
    destruct (truthy _); [|simpl; discriminate].
    destruct (ConversationManager._deserialize_context _) as [c|e];
      simpl; [|discriminate].
    by intros [= ->].
Qed.

Lemma get_conversation_of_record now cid ctx ttl (st : LocalFileStorage.t) :
  _is_expired now (context_key cid) st = false ->
  files st !! _get_file_path (context_key cid)
    = Some (ScalarRecord (ContextJson ctx) ttl) ->
  ConversationManager.get_conversation now (Plain (PyStr cid)) st
    = (Ok (Some ctx), st).
Proof.
  intros He Hfile.
  unfold ConversationManager.get_conversation, bind.
  change (storage_get now ("conversation:" ++ py_str (Plain (PyStr cid))
                           ++ ":context")%string st)
    with (get now (context_key cid) st).
  by rewrite (get_not_expired _ _ _ He), Hfile.
Qed.

(** Deleting the active-conversation records of a list of participants
    on a healthy disk. *)
Lemma delete_active_records now ps (st : LocalFileStorage.t) :
  faulty st = ∅ ->
  exists st',
    for_each ps (fun q => storage_delete now ("active_conversations:" ++ q)%string)
      st = (Ok tt, st')
    /\ faulty st' = ∅
    /\ (forall q, q ∈ ps ->
          files st' !! _get_file_path (active_key q) = None
          /\ files st' !! _get_list_file_path (active_key q) = None)
    /\ (forall f, files st !! f = None -> files st' !! f = None)
    /\ (forall f, (forall q, f <> _get_file_path (active_key q)
                             /\ f <> _get_list_file_path (active_key q)) ->
          files st' !! f = files st !! f)
    /\ (forall k, (forall q, k <> active_key q) ->
          _ttl_registry st' !! k = _ttl_registry st !! k).
Proof.
  revert st. induction ps as [|q ps IH]; intros st Hf; cbn [for_each].
  - exists st. split; [done|]. split; [done|]. split; [|done].
    intros q Hin. by inversion Hin.
  - unfold bind.
    change (storage_delete now ("active_conversations:" ++ q)%string st)
      with (delete now (active_key q) st).
    rewrite (delete_healthy _ _ _ Hf).
    set (st1 := {| files := _; _ttl_registry := _; faulty := ∅ |}).
    destruct (IH st1 eq_refl) as (st' & Hrun & Hf' & Hgone & Hnone & Hfiles & Hreg).
    exists st'. split; [exact Hrun|]. split; [exact Hf'|].
    assert (Hq : files st1 !! _get_file_path (active_key q) = None
                 /\ files st1 !! _get_list_file_path (active_key q) = None).
    { subst st1. simpl. split.
      - rewrite lookup_delete_ne by apply not_eq_sym, file_path_ne_list_file_path.
        by rewrite lookup_delete_eq.
      - by rewrite lookup_delete_eq. }
    split; [|split; [|split]].
    + intros q0 Hin. apply elem_of_cons in Hin as [->|Hin]; [|by apply Hgone].
      destruct Hq as [Hq1 Hq2]. split; by apply Hnone.
    + intros f Hfnone. apply Hnone. subst st1. simpl.
      rewrite !lookup_delete. repeat case_decide; done.
    + intros f Hne. rewrite (Hfiles f Hne). subst st1. simpl.
      destruct (Hne q) as [Hne1 Hne2].
      by rewrite !lookup_delete_ne.
    + intros k Hne. rewrite (Hreg k Hne). subst st1. simpl.
      by rewrite lookup_delete_ne.
Qed.
End CloseConversation.

(** C10. Closing a stored conversation writes its context back with
    [is_active = false] (and the time of the call as [updated_at]), and for
    every participant deletes the whole record
    [active_conversations:<participant>], scalar file and list file: after
    the call the list of active conversations of each participant is
    empty, whatever other conversations it held, and the router finds no
    active conversation for the participant. *)
Theorem close_conversation_drops_participant_records :
  forall (now : Time) (cid : string) (ctx : ConversationContext)
         (st : LocalFileStorage.t),
    LocalFileStorage.faulty st = ∅ ->
    fst (ConversationManager.get_conversation now (Plain (PyStr cid)) st)
      = Ok (Some ctx) ->
    ctx_conversation_id ctx = cid ->
    serializable_context ctx ->
    exists st',
      ConversationManager.close_conversation now (Plain (PyStr cid)) st
        = (Ok tt, st')
      /\ LocalFileStorage.files st'
           !! LocalFileStorage._get_file_path (context_key cid)
         = Some (LocalFileStorage.ScalarRecord
                   (ContextJson (ConversationManager.closed now ctx)) None)
      /\ ConversationManager.get_conversation now (Plain (PyStr cid)) st'
         = (Ok (Some (ConversationManager.closed now ctx)), st')
      /\ is_active (ConversationManager.closed now ctx) = false
      /\ (forall q, q ∈ participant_ids ctx ->
            LocalFileStorage.files st'
              !! LocalFileStorage._get_file_path (active_key q) = None
            /\ LocalFileStorage.files st'
                 !! LocalFileStorage._get_list_file_path (active_key q) = None
            /\ LocalFileStorage.get_list now (active_key q) 0 (-1) st'
               = (Ok [], st')
            /\ MessageRouter._find_active_conversation now q st'
               = (Ok (Plain PyNone), st')).
Proof.
  intros now cid ctx st Hf Hfound Hid Hser.
  apply get_conversation_found in Hfound as [Hget Hexp].
  unfold ConversationManager.close_conversation, bind at 1. rewrite Hget.
  unfold bind at 1.
  unfold ConversationManager._save_conversation_context, bind at 1.
  unfold ConversationManager._serialize_context.
  rewrite bool_decide_eq_true_2 by exact Hser.
  cbn [ConversationManager.lift_result ret ConversationManager.closed
       ctx_conversation_id ctx_metadata participant_ids].
  rewrite Hid.
  change (storage_set now ("conversation:" ++ cid ++ ":context")%string
            (ContextJson (ConversationManager.closed now ctx)) None st)
    with (LocalFileStorage.set now (context_key cid)
            (ContextJson (ConversationManager.closed now ctx)) None st).
  rewrite set_unfold. rewrite Hf.
  destruct (decide _) as [Hin|_]; [set_solver|].
  cbn [json_serializable ttl_given].
  set (st1 := LocalFileStorage.with_files _ st).
  destruct (delete_active_records now (participant_ids ctx) st1 Hf)
    as (st' & Hrun & Hf' & Hgone & _ & Hfiles & Hreg).
  exists st'. split; [exact Hrun|].
  assert (Hrecord : LocalFileStorage.files st'
                      !! LocalFileStorage._get_file_path (context_key cid)
                    = Some (LocalFileStorage.ScalarRecord
                              (ContextJson (ConversationManager.closed now ctx))
                              None)).
  { rewrite Hfiles.
    - subst st1. simpl. by rewrite lookup_insert_eq.
    - intros q. destruct (context_path_ne_active cid q) as (? & ? & _). done. }
  split; [exact Hrecord|]. split; [|split; [done|]].
  - eapply get_conversation_of_record; [|exact Hrecord].
    unfold LocalFileStorage._is_expired in *.
    rewrite Hreg; [exact Hexp|].
    intros q. by destruct (context_path_ne_active cid q) as (_ & _ & ?).
  - intros q Hin. destruct (Hgone q Hin) as [Hg1 Hg2].
    split; [done|]. split; [done|].
    assert (Hlist : LocalFileStorage.get_list now (active_key q) 0 (-1) st'
                    = (Ok [], st')).
    { unfold LocalFileStorage.get_list, bind, gets.
      apply path_exists_false in Hg2. by rewrite Hg2. }
    split; [done|].
    unfold MessageRouter._find_active_conversation, bind.
    change (storage_get_list now ("active_conversations:" ++ q)%string 0 (-1) st')
      with (LocalFileStorage.get_list now (active_key q) 0 (-1) st').
    by rewrite Hlist.
Qed.

(** ** The interceptor pipeline *)

Section InterceptFacts.
Import MessageInterceptor.
Context {W : Type}.
Implicit Types (ic : MessageInterceptor.t W) (m : Message) (w : W).

(** The pre-processing loop rebinds [message] to the outcome of each
    processor in turn. *)
Lemma pre_processors_run ps m w m1 w1 :
  run_processors ps m w = (Ok m1, w1) ->
  for_each ps apply_processor (m, w) = (Ok tt, (m1, w1)).
Proof.
  revert m w. induction ps as [|p ps IH]; intros m w; cbn [for_each run_processors].
  - by intros [= -> ->].
  - unfold bind at 1 2. unfold apply_processor, bind, current, world, rebind,
      gets, modify. cbn [fst snd].
    destruct (p m w) as [[m'|e] w']; [|done].
    intros Hrest. by apply IH.
Qed.

(** Whatever [intercept] raises, it has marked the message FAILED. *)
Lemma intercept_raise_failed ic now m w e m' w' :
  intercept ic now m w = (Raise e, (m', w')) -> status m' = FAILED.
Proof.
  unfold intercept, try_except.
  destruct (intercept_body ic now (m, w)) as [[r|e0] [m0 w0]]; [done|].
  unfold bind, set_status, modify, raise. cbn [fst snd].
  by intros [= _ <- _].
Qed.

(** [intercept] up to the routing decision. *)
Lemma intercept_routed ic now m w m1 w1 d w2 :
  run_processors (_pre_processors ic) m w = (Ok m1, w1) ->
  router_route (router ic) now (with_status QUEUED m1) w1 = (Ok d, w2) ->
  intercept_body ic now (m, w) =
    (if negb (should_process d) then
       let! _ := set_status IGNORED in ret None
     else if create_new_conversation d then
       let! conversation :=
         world (manager_create_conversation (conversation_manager ic)
                  now (with_status QUEUED m1) (rd_metadata d)) in
       let! _ := set_conversation_id (ctx_conversation_id conversation) in
       process_in ic now conversation
     else if truthy (rd_conversation_id d) then
       let! conversation :=
         world (manager_get_conversation (conversation_manager ic)
                  now (rd_conversation_id d)) in
       match conversation with
       | None => let! _ := set_status FAILED in ret None
       | Some conversation =>
           let! _ := set_conversation_id (ctx_conversation_id conversation) in
           process_in ic now conversation
       end
     else let! _ := set_status FAILED in ret None)
      (with_status QUEUED m1, w2).
Proof.
  intros Hpre Hroute. unfold intercept_body.
  unfold bind at 1. rewrite (pre_processors_run _ _ _ _ _ Hpre).
  unfold bind at 1. unfold set_status at 1, modify. cbn [fst snd].
  unfold bind at 1. unfold current at 1, gets. cbn [fst snd].
  unfold bind at 1. unfold world at 1. cbn [fst snd]. rewrite Hroute.
  reflexivity.
Qed.
End InterceptFacts.

(** C9. [intercept] signals the expected negative outcomes by returning
    [None], without raising: a decision that declines leaves the message
    IGNORED; a decision that neither asks for a new conversation nor names
    one, a named conversation that the store does not have, and a
    conversation for which neither its bound agent nor the default agent
    is available, leave it FAILED.  Every exception that [intercept] lets
    out has marked the message FAILED first, and is the exception that was
    raised inside: a fault of the store or of the agent comes out
    unchanged. *)
Theorem intercept_negative_outcomes :
  forall (W : Type) (ic : MessageInterceptor.t W) (now : Time)
         (message : Message) (w : W),
    (forall e m' w',
       MessageInterceptor.intercept ic now message w = (Raise e, (m', w')) ->
       status m' = FAILED)
    /\ (forall m1 w1 d w2,
          MessageInterceptor.run_processors
            (MessageInterceptor._pre_processors ic) message w = (Ok m1, w1) ->
          router_route (MessageInterceptor.router ic) now
            (with_status QUEUED m1) w1 = (Ok d, w2) ->
          (should_process d = false ->
           MessageInterceptor.intercept ic now message w
           = (Ok None, (with_status IGNORED m1, w2)))
          /\ (should_process d = true ->
              create_new_conversation d = false ->
              truthy (rd_conversation_id d) = false ->
              MessageInterceptor.intercept ic now message w
              = (Ok None, (with_status FAILED m1, w2)))
          /\ (should_process d = true ->
              create_new_conversation d = false ->
              truthy (rd_conversation_id d) = true ->
              forall r w3,
                manager_get_conversation
                  (MessageInterceptor.conversation_manager ic) now
                  (rd_conversation_id d) w2 = (r, w3) ->
                match r with
                | Ok None =>
                    MessageInterceptor.intercept ic now message w
                    = (Ok None, (with_status FAILED m1, w3))
                | Ok (Some c) =>
                    MessageInterceptor._select_agent ic c = None ->
                    MessageInterceptor.intercept ic now message w
                    = (Ok None,
                       (with_status FAILED
                          (with_conversation_id (ctx_conversation_id c) m1), w3))
                | Raise e =>
                    MessageInterceptor.intercept ic now message w
                    = (Raise e, (with_status FAILED m1, w3))
                end)
          /\ (should_process d = true ->
              create_new_conversation d = true ->
              forall c w3,
                manager_create_conversation
                  (MessageInterceptor.conversation_manager ic) now
                  (with_status QUEUED m1) (rd_metadata d) w2 = (Ok c, w3) ->
                (MessageInterceptor._select_agent ic c = None ->
                 MessageInterceptor.intercept ic now message w
                 = (Ok None,
                    (with_status FAILED
                       (with_conversation_id (ctx_conversation_id c) m1), w3)))
                /\ (forall agent e w4,
                      MessageInterceptor._select_agent ic c = Some agent ->
                      process_message agent now
                        (with_status PROCESSING
                           (with_conversation_id (ctx_conversation_id c) m1))
                        c w3 = (Raise e, w4) ->
                      MessageInterceptor.intercept ic now message w
                      = (Raise e,
                         (with_status FAILED
                            (with_conversation_id (ctx_conversation_id c) m1),
                          w4))))).
Proof.
  intros W ic now message w. split.
  - intros e m' w'. apply intercept_raise_failed.
  - intros m1 w1 d w2 Hpre Hroute.
    unfold MessageInterceptor.intercept, try_except.
    rewrite (intercept_routed _ _ _ _ _ _ _ _ Hpre Hroute).
    split; [|split; [|split]].
    + intros ->. reflexivity.
    + intros -> -> ->. reflexivity.
    + intros -> -> -> r w3 Hget. cbn [negb].
      destruct r as [[c|]|e]; [intros Hagent| |];
        unfold bind at 1; unfold MessageInterceptor.world at 1; cbn [fst snd];
        rewrite Hget; [|reflexivity|reflexivity].
      unfold bind at 1. unfold MessageInterceptor.set_conversation_id at 1, modify.
      cbn [fst snd].
      unfold MessageInterceptor.process_in. rewrite Hagent. reflexivity.
    + intros -> -> c w3 Hcreate. cbn [negb].
      split; [intros Hagent|intros agent e w4 Hagent Hproc];
        unfold bind at 1; unfold MessageInterceptor.world at 1; cbn [fst snd];
        rewrite Hcreate;
        unfold bind at 1;
        unfold MessageInterceptor.set_conversation_id at 1, modify;
        cbn [fst snd];
        unfold MessageInterceptor.process_in; rewrite Hagent.
      * reflexivity.
      * unfold bind at 1. unfold MessageInterceptor.set_status at 1, modify.
        cbn [fst snd].
        unfold bind at 1. unfold MessageInterceptor.current at 1, gets.
        cbn [fst snd].
        unfold bind at 1. unfold MessageInterceptor.world at 1. cbn [fst snd].
        change (with_status PROCESSING
                  (with_conversation_id (ctx_conversation_id c)
                     (with_status QUEUED m1)))
          with (with_status PROCESSING
                  (with_conversation_id (ctx_conversation_id c) m1)).
        rewrite Hproc. reflexivity.
Qed.

(** ** Instances of the theorems above *)



Lemma ttl_expiry_and_lazy_delete_witness :
  LocalFileStorage.set 0 "k" (PyStr "v") (Some 5) LocalFileStorage.empty
    = (Ok tt, snd (LocalFileStorage.set 0 "k" (PyStr "v") (Some 5)
                     LocalFileStorage.empty))
  /\ 5 <> 0
  /\ fst (LocalFileStorage.get 5 "k"
            (snd (LocalFileStorage.set 0 "k" (PyStr "v") (Some 5)
                    LocalFileStorage.empty)))
     = Ok (Plain (PyStr "v"))
  /\ (exists st2,
        LocalFileStorage.get 6 "k"
          (snd (LocalFileStorage.set 0 "k" (PyStr "v") (Some 5)
                  LocalFileStorage.empty))
        = (Ok (Plain PyNone), st2)
        /\ LocalFileStorage.files st2 !! LocalFileStorage._get_file_path "k"
           = None).
Proof.
  assert (Hset : LocalFileStorage.set 0 "k" (PyStr "v") (Some 5)
                   LocalFileStorage.empty
                 = (Ok tt, snd (LocalFileStorage.set 0 "k" (PyStr "v") (Some 5)
                                  LocalFileStorage.empty)))
    by (vm_compute; reflexivity).
  assert (Hn : 5 <> 0) by lia.
  destruct (ttl_expiry_and_lazy_delete 0 "k" (PyStr "v") 5 _ _ Hset Hn)
    as [Hbefore Hafter].
  split; [exact Hset|]. split; [exact Hn|]. split.
  - destruct (Hbefore 5 ltac:(lia)) as [Hget _]. by rewrite Hget.
  - destruct (Hafter 6 ltac:(lia)) as (st2 & Hget & _ & Hgone & _).
    exists st2. by split.
Defined.





Lemma intercept_negative_outcomes_witness :
  MessageInterceptor.run_processors
    (MessageInterceptor._pre_processors declining_pipeline) system_message tt
    = (Ok system_message, tt)
  /\ should_process declined = false
  /\ MessageInterceptor.intercept declining_pipeline 7 system_message tt
     = (Ok None, (with_status IGNORED system_message, tt)).
Proof.
  assert (Hpre : MessageInterceptor.run_processors
                   (MessageInterceptor._pre_processors declining_pipeline)
                   system_message tt = (Ok system_message, tt))
    by reflexivity.
  split; [exact Hpre|]. split; [reflexivity|].
  destruct (intercept_negative_outcomes unit declining_pipeline 7
              system_message tt) as [_ Hrouted].
  destruct (Hrouted system_message tt declined tt Hpre eq_refl) as [Hignored _].
  exact (Hignored eq_refl).
Defined.

Lemma close_conversation_drops_participant_records_witness :
  LocalFileStorage.faulty two_conversations_store = ∅
  /\ fst (LocalFileStorage.get_list 5 "active_conversations:u1" 0 (-1)
            two_conversations_store)
     = Ok [Plain (PyStr "c1"); Plain (PyStr "c2")]
  /\ (exists st',
        ConversationManager.close_conversation 5 (Plain (PyStr "c1"))
          two_conversations_store = (Ok tt, st')
        /\ ConversationManager.get_conversation 5 (Plain (PyStr "c1")) st'
           = (Ok (Some (ConversationManager.closed 5 context_c1)), st')
        /\ LocalFileStorage.get_list 5 "active_conversations:u1" 0 (-1) st'
           = (Ok [], st')).
Proof.
  assert (Hf : LocalFileStorage.faulty two_conversations_store = ∅)
    by (vm_compute; reflexivity).
  split; [exact Hf|]. split; [vm_compute; reflexivity|].
  destruct (close_conversation_drops_participant_records 5 "c1" context_c1
              two_conversations_store Hf)
    as (st' & Hclose & _ & Hget & _ & Hgone).
  - vm_compute. reflexivity.
  - reflexivity.
  - unfold serializable_context. apply map_Forall_empty.
  - exists st'. split; [exact Hclose|]. split; [exact Hget|].
    destruct (Hgone "u1") as (_ & _ & Hlist & _); [|exact Hlist].
    simpl. left.
Defined.

(** * Further properties of the code *)

(** ** The file backend: lists *)

Lemma py_slice_all {A} (l : list A) : py_slice l 0 None = l.
Proof.
  unfold py_slice, slice_index. simpl.
  rewrite Z.min_l by lia. simpl. rewrite Z.sub_0_r, Nat2Z.id.
  by rewrite firstn_all.
Qed.

Lemma py_slice_nil {A} start stop : py_slice (@nil A) start stop = [].
Proof. unfold py_slice. by rewrite drop_nil, take_nil. Qed.

Lemma get_list_unfold now key start end_ st :
  LocalFileStorage.get_list now key start end_ st
  = (Ok (if Z.eqb end_ (-1) then py_slice (stored_list st key) start None
         else py_slice (stored_list st key) start (Some (end_ + 1))), st).
Proof.
  unfold LocalFileStorage.get_list, stored_list, bind, gets, try_except,
    LocalFileStorage.read_json, ret.
  destruct (LocalFileStorage.path_exists _ st) eqn:E; simpl.
  - destruct (LocalFileStorage.files st !! _) as [[v ttl|vs|]|]; simpl;
      destruct (Z.eqb end_ (-1)); by rewrite ?py_slice_nil.
  - apply path_exists_false in E. rewrite E.
    destruct (Z.eqb end_ (-1)); by rewrite py_slice_nil.
Qed.

Lemma append_to_list_ok now key value st :
  (LocalFileStorage._get_list_file_path key ∉ LocalFileStorage.faulty st) ->
  json_serializable value = true ->
  exists st',
    LocalFileStorage.append_to_list now key value st = (Ok tt, st')
    /\ LocalFileStorage.faulty st' = LocalFileStorage.faulty st
    /\ LocalFileStorage._ttl_registry st' = LocalFileStorage._ttl_registry st
    /\ stored_list st' key = stored_list st key ++ [value]
    /\ LocalFileStorage.files st'
       = <[LocalFileStorage._get_list_file_path key
           := LocalFileStorage.ListRecord (stored_list st key ++ [value])]>
           (LocalFileStorage.files st).
Proof.
  intros Hok Hser. rewrite append_to_list_unfold. simpl.
  destruct (decide _); [done|]. rewrite Hser.
  eexists. split; [reflexivity|]. split; [done|]. split; [done|].
  unfold stored_list. simpl. by rewrite lookup_insert_eq.
Qed.

(** X1. Sequential appends to one key all land, in the order of the
    calls, after the entries the list already had: when the list file can
    be written and the values can be serialised, appending [vs] one by one
    returns, and a full-range [get_list] then returns the previous entries
    followed by [vs]. *)
Theorem appends_land_in_order :
  forall (now : Time) (key : string) (vs : list Value) (st : LocalFileStorage.t),
    (LocalFileStorage._get_list_file_path key ∉ LocalFileStorage.faulty st) ->
    Forall (fun v => json_serializable v = true) vs ->
    exists st',
      for_each vs (fun v => LocalFileStorage.append_to_list now key v) st
        = (Ok tt, st')
      /\ LocalFileStorage.get_list now key 0 (-1) st'
         = (Ok (stored_list st key ++ vs), st').
Proof.
  intros now key vs. induction vs as [|v vs IH]; intros st Hok Hser.
  - exists st. split; [done|].
    rewrite get_list_unfold. simpl. by rewrite py_slice_all, app_nil_r.
  - apply Forall_cons in Hser as [Hv Hvs].
    destruct (append_to_list_ok now key v st Hok Hv)
      as (st1 & Happ & Hflt & _ & Hlist & _).
    destruct (IH st1) as (st' & Hrun & Hget); [by rewrite Hflt|done|].
    exists st'. split.
    + cbn [for_each]. unfold bind. by rewrite Happ.
    + rewrite Hget, Hlist. by rewrite <- app_assoc.
Qed.

Lemma appends_land_in_order_witness :
  exists st',
    for_each [Plain (PyStr "c2"); Plain (PyStr "c3")]
      (fun v => LocalFileStorage.append_to_list 1 "active_conversations:u1" v)
      active_list_store = (Ok tt, st')
    /\ LocalFileStorage.get_list 1 "active_conversations:u1" 0 (-1) st'
       = (Ok [Plain (PyStr "c1"); Plain (PyStr "c2"); Plain (PyStr "c3")], st').
Proof.
  apply (appends_land_in_order 1 "active_conversations:u1"
           [Plain (PyStr "c2"); Plain (PyStr "c3")] active_list_store).
  - vm_compute. set_solver.
  - repeat constructor.
Defined.



(** ** The file backend: deletion, overwriting and the names of the files *)

Lemma delete_healthy_absent now key st :
  LocalFileStorage.faulty st = ∅ ->
  exists st',
    LocalFileStorage.delete now key st = (Ok tt, st')
    /\ (forall t,
          LocalFileStorage.get t key st' = (Ok (Plain PyNone), st')
          /\ LocalFileStorage.exists_ t key st' = (Ok false, st')
          /\ LocalFileStorage.get_list t key 0 (-1) st' = (Ok [], st'))
    /\ (forall t, LocalFileStorage.delete t key st' = (Ok tt, st')).
Proof.
  intros Hf. rewrite (delete_healthy _ _ _ Hf).
  set (st' := {| LocalFileStorage.files := _ |}).
  assert (Hp : LocalFileStorage.files st'
                 !! LocalFileStorage._get_file_path key = None).
  { subst st'. simpl.
    rewrite lookup_delete_ne by apply not_eq_sym, file_path_ne_list_file_path.
    by rewrite lookup_delete_eq. }
  assert (Hl : LocalFileStorage.files st'
                 !! LocalFileStorage._get_list_file_path key = None).
  { subst st'. simpl. by rewrite lookup_delete_eq. }
  assert (He : forall t, LocalFileStorage._is_expired t key st' = false).
  { intros t. unfold LocalFileStorage._is_expired. subst st'. simpl.
    by rewrite lookup_delete_eq. }
  exists st'. split; [done|]. split.
  - intros t.
    rewrite (get_not_expired _ _ _ (He t)), (exists_not_expired _ _ _ (He t)),
      get_list_unfold, Hp.
    unfold stored_list. rewrite Hl. simpl.
    apply path_exists_false in Hp, Hl. rewrite Hp, Hl.
    by rewrite py_slice_nil.
  - intros t. rewrite (delete_healthy t key st' eq_refl).
    subst st'. simpl. f_equal. f_equal.
    + rewrite (delete_id (base.delete _ (base.delete _ _))
                 (LocalFileStorage._get_file_path key)).
      { apply delete_id. by rewrite lookup_delete_eq. }
      rewrite lookup_delete_ne
        by apply not_eq_sym, file_path_ne_list_file_path.
      by rewrite lookup_delete_eq.
    + apply delete_id. by rewrite lookup_delete_eq.
Qed.

(** X3. [delete] never raises.  On a disk without faults it removes the
    scalar record, the list record and the expiry of the key: afterwards
    [get] reports the key absent, [exists] is false and [get_list] is
    empty at any time, and a second [delete] changes nothing.  When the
    scalar file exists and cannot be unlinked, the error is swallowed and
    the store is left as it was. *)
Theorem delete_removes_key_and_is_idempotent :
  forall (now : Time) (key : string) (st : LocalFileStorage.t),
    fst (LocalFileStorage.delete now key st) = Ok tt
    /\ (LocalFileStorage.faulty st = ∅ ->
        exists st',
          LocalFileStorage.delete now key st = (Ok tt, st')
          /\ (forall t,
                LocalFileStorage.get t key st' = (Ok (Plain PyNone), st')
                /\ LocalFileStorage.exists_ t key st' = (Ok false, st')
                /\ LocalFileStorage.get_list t key 0 (-1) st' = (Ok [], st'))
          /\ (forall t, LocalFileStorage.delete t key st' = (Ok tt, st')))
    /\ (LocalFileStorage.path_exists (LocalFileStorage._get_file_path key) st
          = true ->
        LocalFileStorage._get_file_path key ∈ LocalFileStorage.faulty st ->
        LocalFileStorage.delete now key st = (Ok tt, st)).
Proof.
  intros now key st. split; [apply delete_returns|]. split.
  - apply delete_healthy_absent.
  - intros Hex Hin.
    unfold LocalFileStorage.delete, try_except, bind, gets,
      LocalFileStorage.unlink, ret.
    rewrite Hex. simpl. by destruct (decide _).
Qed.

Lemma delete_removes_key_and_is_idempotent_witness :
  LocalFileStorage.faulty two_conversations_store = ∅
  /\ exists st',
       LocalFileStorage.delete 3 "active_conversations:u1"
         two_conversations_store = (Ok tt, st')
       /\ LocalFileStorage.exists_ 4 "active_conversations:u1" st'
          = (Ok false, st').
Proof.
  assert (Hf : LocalFileStorage.faulty two_conversations_store = ∅)
    by (vm_compute; reflexivity).
  split; [exact Hf|].
  destruct (delete_removes_key_and_is_idempotent 3 "active_conversations:u1"
              two_conversations_store) as (_ & Hdel & _).
  destruct (Hdel Hf) as (st' & Hrun & Hafter & _).
  exists st'. split; [exact Hrun|]. apply Hafter.
Defined.

(** X4. A value written without TTL under a key that has no expiry
    pending stays: every later [get], whenever it is made, returns the
    value and writes nothing. *)
Theorem set_without_ttl_is_durable :
  forall (now : Time) (key : string) (value : Value)
         (st st1 : LocalFileStorage.t),
    LocalFileStorage.set now key value None st = (Ok tt, st1) ->
    LocalFileStorage._ttl_registry st !! key = None ->
    forall t, LocalFileStorage.get t key st1 = (Ok value, st1).
Proof.
  intros now key value st st1 Hset Hreg t.
  apply set_ok_inv in Hset as (_ & _ & _ & Hfiles & Hreg1). simpl in Hreg1.
  assert (He : LocalFileStorage._is_expired t key st1 = false).
  { unfold LocalFileStorage._is_expired. by rewrite Hreg1, Hreg. }
  by rewrite (get_not_expired _ _ _ He), Hfiles, lookup_insert_eq.
Qed.

Lemma set_without_ttl_is_durable_witness :
  LocalFileStorage.set 0 "a" (PyStr "x") None LocalFileStorage.empty
    = (Ok tt, scalar_store)
  /\ LocalFileStorage.get 1000000 "a" scalar_store
     = (Ok (Plain (PyStr "x")), scalar_store).
Proof.
  assert (Hset : LocalFileStorage.set 0 "a" (PyStr "x") None
                   LocalFileStorage.empty = (Ok tt, scalar_store))
    by (vm_compute; reflexivity).
  split; [exact Hset|].
  apply (set_without_ttl_is_durable 0 "a" (PyStr "x") LocalFileStorage.empty
           scalar_store Hset).
  reflexivity.
Defined.

(** X5. Keys are told apart by their file names only, and the file name
    replaces every [:] by [_]: a value written under one key is read back
    under every key with the same file name (such as [a:b] and [a_b]), and
    writing the scalar key whose file is the list file of another key
    (such as [k_list] for [k]) leaves that key with an empty list. *)
Theorem keys_with_one_file_name_share_a_record :
  forall (now : Time) (k k' : string) (value : Value) (ttl : option Z)
         (st st1 : LocalFileStorage.t),
    LocalFileStorage.set now k value ttl st = (Ok tt, st1) ->
    (LocalFileStorage._get_file_path k = LocalFileStorage._get_file_path k' ->
     forall t,
       LocalFileStorage._is_expired t k' st1 = false ->
       LocalFileStorage.get t k' st1 = (Ok value, st1))
    /\ (LocalFileStorage._get_file_path k
          = LocalFileStorage._get_list_file_path k' ->
        forall t, LocalFileStorage.get_list t k' 0 (-1) st1 = (Ok [], st1)).
Proof.
  intros now k k' value ttl st st1 Hset.
  apply set_ok_inv in Hset as (_ & _ & _ & Hfiles & _). split.
  - intros Hpath t He.
    by rewrite (get_not_expired _ _ _ He), <- Hpath, Hfiles, lookup_insert_eq.
  - intros Hpath t. rewrite get_list_unfold. unfold stored_list.
    rewrite <- Hpath, Hfiles, lookup_insert_eq. simpl.
    by rewrite py_slice_nil.
Qed.

Lemma keys_with_one_file_name_share_a_record_witness :
  let st1 := snd (LocalFileStorage.set 0 "a:b" (PyStr "v") None
                    LocalFileStorage.empty) in
  let st2 := snd (LocalFileStorage.set 3 "active_conversations:u1_list"
                    (PyStr "v") None active_list_store) in
  LocalFileStorage.get 5 "a_b" st1 = (Ok (Plain (PyStr "v")), st1)
  /\ fst (LocalFileStorage.get_list 2 "active_conversations:u1" 0 (-1)
            active_list_store) = Ok [Plain (PyStr "c1")]
  /\ LocalFileStorage.get_list 5 "active_conversations:u1" 0 (-1) st2
     = (Ok [], st2).
Proof.
  intros st1 st2. split; [|split; [vm_compute; reflexivity|]].
  - apply (proj1 (keys_with_one_file_name_share_a_record 0 "a:b" "a_b"
                    (PyStr "v") None LocalFileStorage.empty st1
                    ltac:(vm_compute; reflexivity)));
      [reflexivity|vm_compute; reflexivity].
  - apply (proj2 (keys_with_one_file_name_share_a_record 3
                    "active_conversations:u1_list" "active_conversations:u1"
                    (PyStr "v") None active_list_store st2
                    ltac:(vm_compute; reflexivity))).
    reflexivity.
Defined.

(** X6. [set] on one key does not change what [get] answers for a key
    with another file name, whether the [set] returns or raises. *)
Theorem set_leaves_other_keys :
  forall (now t : Time) (k k' : string) (value : Value) (ttl : option Z)
         (st : LocalFileStorage.t),
    LocalFileStorage._get_file_path k <> LocalFileStorage._get_file_path k' ->
    fst (LocalFileStorage.get t k'
           (snd (LocalFileStorage.set now k value ttl st)))
    = fst (LocalFileStorage.get t k' st).
Proof.
  intros now t k k' value ttl st Hpath.
  assert (Hk : k <> k') by (intros ->; done).
  set (st1 := snd (LocalFileStorage.set now k value ttl st)).
  assert (Hreg : LocalFileStorage._ttl_registry st1 !! k'
                 = LocalFileStorage._ttl_registry st !! k').
  { subst st1. rewrite set_unfold.
    destruct (decide _); [done|].
    destruct (json_serializable value); [|done].
    destruct (ttl_given ttl); simpl; [|done]. by rewrite lookup_insert_ne. }
  assert (Hfile : LocalFileStorage.files st1 !! LocalFileStorage._get_file_path k'
                  = LocalFileStorage.files st !! LocalFileStorage._get_file_path k').
  { subst st1. rewrite set_unfold.
    destruct (decide _); [done|].
    destruct (json_serializable value); [destruct (ttl_given ttl)|]; simpl;
      by rewrite lookup_insert_ne. }
  assert (He : LocalFileStorage._is_expired t k' st1
               = LocalFileStorage._is_expired t k' st).
  { unfold LocalFileStorage._is_expired. by rewrite Hreg. }
  destruct (LocalFileStorage._is_expired t k' st) eqn:E.
  - by rewrite (get_expired _ _ _ He), (get_expired _ _ _ E).
  - by rewrite (get_not_expired _ _ _ He), (get_not_expired _ _ _ E), Hfile.
Qed.

Lemma set_leaves_other_keys_witness :
  LocalFileStorage._get_file_path "b" <> LocalFileStorage._get_file_path "a"
  /\ fst (LocalFileStorage.get 5 "a"
            (snd (LocalFileStorage.set 1 "b" (Plain (PyObject 0)) (Some 2)
                    scalar_store)))
     = Ok (Plain (PyStr "x")).
Proof.
  assert (Hne : LocalFileStorage._get_file_path "b"
                <> LocalFileStorage._get_file_path "a") by discriminate.
  split; [exact Hne|].
  rewrite (set_leaves_other_keys 1 5 "b" "a" (Plain (PyObject 0)) (Some 2)
             scalar_store Hne).
  vm_compute. reflexivity.
Defined.

(** X7. [exists] agrees with [get]: whenever [get] returns a value other
    than [None] for a key, [exists] is true for that key at that time. *)
Theorem get_value_implies_exists :
  forall (now : Time) (key : string) (v : Value) (st : LocalFileStorage.t),
    fst (LocalFileStorage.get now key st) = Ok v ->
    is_None v = false ->
    LocalFileStorage.exists_ now key st = (Ok true, st).
Proof.
  intros now key v st Hget Hv.
  destruct (LocalFileStorage._is_expired now key st) eqn:He.
  - rewrite (get_expired _ _ _ He) in Hget. simpl in Hget.
    injection Hget as <-. discriminate.
  - rewrite (get_not_expired _ _ _ He) in Hget. simpl in Hget.
    rewrite (exists_not_expired _ _ _ He).
    destruct (LocalFileStorage.files st !! _) as [data|] eqn:E.
    + assert (Hp : LocalFileStorage.path_exists
                     (LocalFileStorage._get_file_path key) st = true).
      { apply path_exists_true. by rewrite E. }
      by rewrite Hp.
    + injection Hget as <-. discriminate.
Qed.

Lemma get_value_implies_exists_witness :
  fst (LocalFileStorage.get 7 "a" scalar_store) = Ok (Plain (PyStr "x"))
  /\ LocalFileStorage.exists_ 7 "a" scalar_store = (Ok true, scalar_store).
Proof.
  assert (Hget : fst (LocalFileStorage.get 7 "a" scalar_store)
                 = Ok (Plain (PyStr "x"))) by (vm_compute; reflexivity).
  split; [exact Hget|].
  exact (get_value_implies_exists 7 "a" _ scalar_store Hget eq_refl).
Defined.

(** ** The file backend: the sweep of expired keys *)

Lemma delete_all_healthy now keys (st : LocalFileStorage.t) :
  LocalFileStorage.faulty st = ∅ ->
  exists st',
    for_each keys (fun key => LocalFileStorage.delete now key) st = (Ok tt, st')
    /\ LocalFileStorage.faulty st' = ∅
    /\ (forall k, k ∈ keys ->
          LocalFileStorage._ttl_registry st' !! k = None
          /\ LocalFileStorage.files st' !! LocalFileStorage._get_file_path k = None
          /\ LocalFileStorage.files st' !! LocalFileStorage._get_list_file_path k
             = None)
    /\ (forall k, LocalFileStorage._ttl_registry st !! k = None ->
          LocalFileStorage._ttl_registry st' !! k = None)
    /\ (forall f, LocalFileStorage.files st !! f = None ->
          LocalFileStorage.files st' !! f = None)
    /\ (forall k, k ∉ keys ->
          LocalFileStorage._ttl_registry st' !! k
          = LocalFileStorage._ttl_registry st !! k)
    /\ (forall f, (forall k, k ∈ keys ->
                     f <> LocalFileStorage._get_file_path k
                     /\ f <> LocalFileStorage._get_list_file_path k) ->
          LocalFileStorage.files st' !! f = LocalFileStorage.files st !! f).
Proof.
  revert st. induction keys as [|key keys IH]; intros st Hf; cbn [for_each].
  - exists st. split; [done|]. split; [done|]. split; [|done].
    intros k Hin. by inversion Hin.
  - unfold bind. rewrite (delete_healthy _ _ _ Hf).
    set (st1 := {| LocalFileStorage.files := _ |}).
    destruct (IH st1 eq_refl)
      as (st' & Hrun & Hf' & Hgone & Hregn & Hfilen & Hreg & Hfiles).
    exists st'. split; [exact Hrun|]. split; [exact Hf'|].
    assert (Hkey : LocalFileStorage._ttl_registry st1 !! key = None
                   /\ LocalFileStorage.files st1
                        !! LocalFileStorage._get_file_path key = None
                   /\ LocalFileStorage.files st1
                        !! LocalFileStorage._get_list_file_path key = None).
    { subst st1. simpl. split; [by rewrite lookup_delete_eq|]. split.
      - rewrite lookup_delete_ne
          by apply not_eq_sym, file_path_ne_list_file_path.
        by rewrite lookup_delete_eq.
      - by rewrite lookup_delete_eq. }
    split; [|split; [|split; [|split]]].
    + intros k Hin. apply elem_of_cons in Hin as [->|Hin]; [|by apply Hgone].
      destruct Hkey as (H1 & H2 & H3). split; [by apply Hregn|].
      split; by apply Hfilen.
    + intros k Hk. apply Hregn. subst st1. simpl.
      rewrite lookup_delete. by case_decide.
    + intros f Hfn. apply Hfilen. subst st1. simpl.
      rewrite !lookup_delete. repeat case_decide; done.
    + intros k Hnin. apply not_elem_of_cons in Hnin as [Hne Hnin].
      rewrite (Hreg k Hnin). subst st1. simpl. by rewrite lookup_delete_ne.
    + intros f Hne. rewrite Hfiles.
      * subst st1. simpl. destruct (Hne key) as [H1 H2]; [by left|].
        by rewrite !lookup_delete_ne.
      * intros k Hin. apply Hne. by right.
Qed.

(** X8. [cleanup_expired] on a disk without faults removes every key
    whose expiry instant has passed, with its scalar and list records, and
    nothing else: afterwards no key is expired, the keys that were not
    expired keep their expiry, and every file that is not a file of an
    expired key is as before. *)
Theorem cleanup_expired_sweeps :
  forall (now : Time) (st : LocalFileStorage.t),
    LocalFileStorage.faulty st = ∅ ->
    exists st',
      LocalFileStorage.cleanup_expired now st = (Ok tt, st')
      /\ (forall k, LocalFileStorage._is_expired now k st' = false)
      /\ (forall k,
            LocalFileStorage._is_expired now k st = true ->
            LocalFileStorage.files st' !! LocalFileStorage._get_file_path k = None
            /\ LocalFileStorage.files st'
                 !! LocalFileStorage._get_list_file_path k = None)
      /\ (forall k,
            LocalFileStorage._is_expired now k st = false ->
            LocalFileStorage._ttl_registry st' !! k
            = LocalFileStorage._ttl_registry st !! k)
      /\ (forall f,
            (forall k, LocalFileStorage._is_expired now k st = true ->
                       f <> LocalFileStorage._get_file_path k
                       /\ f <> LocalFileStorage._get_list_file_path k) ->
            LocalFileStorage.files st' !! f = LocalFileStorage.files st !! f).
Proof.
  intros now st Hf.
  unfold LocalFileStorage.cleanup_expired, bind, gets.
  set (keys := map fst _).
  assert (Hkeys : forall k, k ∈ keys <-> LocalFileStorage._is_expired now k st = true).
  { intros k. subst keys. unfold LocalFileStorage._is_expired.
    rewrite list_elem_of_fmap. split.
    - intros ([k0 e] & -> & Hin). apply list_elem_of_filter in Hin as [He Hin].
      apply elem_of_map_to_list in Hin. simpl in *. by rewrite Hin.
    - destruct (LocalFileStorage._ttl_registry st !! k) as [e|] eqn:E; [|done].
      intros He. exists (k, e). split; [done|].
      apply list_elem_of_filter. split; [done|]. by apply elem_of_map_to_list. }
  destruct (delete_all_healthy now keys st Hf)
    as (st' & Hrun & _ & Hgone & _ & _ & Hreg & Hfiles).
  exists st'. split; [exact Hrun|]. split; [|split; [|split]].
  - intros k. destruct (LocalFileStorage._is_expired now k st) eqn:E.
    + apply Hkeys in E. destruct (Hgone k E) as [Hnone _].
      unfold LocalFileStorage._is_expired. by rewrite Hnone.
    + assert (Hnin : k ∉ keys) by (rewrite Hkeys; congruence).
      unfold LocalFileStorage._is_expired in *. by rewrite (Hreg k Hnin).
  - intros k E. apply Hkeys in E. by destruct (Hgone k E) as (_ & ? & ?).
  - intros k E. apply Hreg. rewrite Hkeys. congruence.
  - intros f Hne. apply Hfiles. intros k Hin. apply Hne. by apply Hkeys.
Qed.

Lemma cleanup_expired_sweeps_witness :
  LocalFileStorage.faulty two_ttl_store = ∅
  /\ exists st',
       LocalFileStorage.cleanup_expired 10 two_ttl_store = (Ok tt, st')
       /\ LocalFileStorage.files st' !! LocalFileStorage._get_file_path "short"
          = None
       /\ LocalFileStorage._ttl_registry st' !! "long" = Some 50.
Proof.
  assert (Hf : LocalFileStorage.faulty two_ttl_store = ∅)
    by (vm_compute; reflexivity).
  split; [exact Hf|].
  destruct (cleanup_expired_sweeps 10 two_ttl_store Hf)
    as (st' & Hrun & _ & Hgone & Hkept & _).
  exists st'. split; [exact Hrun|]. split.
  - apply (Hgone "short"). vm_compute. reflexivity.
  - rewrite (Hkept "long"); vm_compute; reflexivity.
Defined.

(** ** The file backend: [list_keys] on keys without underscore *)

Lemma chars_append s1 s2 : chars (s1 ++ s2)%string = chars s1 ++ chars s2.
Proof. induction s1 as [|c s1 IH]; simpl; [done|]. by rewrite <- IH. Qed.

Lemma string_append_assoc (s1 s2 s3 : string) :
  ((s1 ++ s2) ++ s3 = s1 ++ (s2 ++ s3))%string.
Proof.
  induction s1 as [|c s1 IH]; [done|].
  change (String c ((s1 ++ s2) ++ s3) = String c (s1 ++ (s2 ++ s3)))%string.
  by rewrite IH.
Qed.















(** ** The hybrid backend: the other operations *)

(** X10. A hybrid store without secondary is its primary: [get], [set],
    [delete], [exists], [append_to_list] and [get_list] return what the
    primary returns and change the primary alone, [list_keys] returns the
    keys of the primary without repetitions, and [migrate_to_secondary]
    raises [ValueError] and changes nothing. *)
Theorem hybrid_without_secondary_is_primary :
  forall (P S : Type) (BP : IStorageBackend P) (BS : IStorageBackend S)
         (now : Time) (key : string) (value : Value) (ttl : option Z)
         (start end_ : Z) (p : P) (sync : bool),
    let h := {| HybridStorage.primary := p;
                HybridStorage.secondary := @None S;
                HybridStorage.sync_enabled := sync |} in
    let on (p' : P) := {| HybridStorage.primary := p';
                          HybridStorage.secondary := @None S;
                          HybridStorage.sync_enabled := sync |} in
    HybridStorage.get now key h
      = (fst (storage_get now key p), on (snd (storage_get now key p)))
    /\ HybridStorage.set now key value ttl h
       = (fst (storage_set now key value ttl p),
          on (snd (storage_set now key value ttl p)))
    /\ HybridStorage.delete now key h
       = (fst (storage_delete now key p), on (snd (storage_delete now key p)))
    /\ HybridStorage.exists_ now key h
       = (fst (storage_exists now key p), on (snd (storage_exists now key p)))
    /\ HybridStorage.append_to_list now key value h
       = (fst (storage_append_to_list now key value p),
          on (snd (storage_append_to_list now key value p)))
    /\ HybridStorage.get_list now key start end_ h
       = (fst (storage_get_list now key start end_ p),
          on (snd (storage_get_list now key start end_ p)))
    /\ HybridStorage.list_keys now key h
       = (match fst (storage_list_keys now key p) with
          | Ok keys => Ok (remove_dups keys)
          | Raise e => Raise e
          end, on (snd (storage_list_keys now key p)))
    /\ HybridStorage.migrate_to_secondary now h
       = (Raise (ValueError "No secondary storage configured"), h).
Proof.
  intros P S BP BS now key value ttl start end_ p sync h on.
  unfold HybridStorage.get, HybridStorage.set, HybridStorage.delete,
    HybridStorage.exists_, HybridStorage.append_to_list,
    HybridStorage.get_list, HybridStorage.list_keys,
    HybridStorage.migrate_to_secondary, bind, gets, ret, raise,
    HybridStorage.on_primary, HybridStorage.has_secondary. simpl.
  repeat split.
  - destruct (storage_get now key p) as [[v|e] p']; simpl; [|done].
    by rewrite andb_false_r.
  - by destruct (storage_set now key value ttl p) as [[[]|e] p'].
  - by destruct (storage_delete now key p) as [[[]|e] p'].
  - destruct (storage_exists now key p) as [[b|e] p']; simpl; [|done].
    by rewrite andb_false_r.
  - by destruct (storage_append_to_list now key value p) as [[[]|e] p'].
  - by destruct (storage_get_list now key start end_ p) as [[[|v l]|e] p'].
  - by destruct (storage_list_keys now key p) as [[l|e] p'].
Qed.

(** X11. The writes of a hybrid store: [set] and [append_to_list] always
    write the primary first; when that write raises, the secondary is not
    written; when it returns, the secondary is written, with the same
    arguments, only if sync is enabled. *)
Theorem hybrid_writes_follow_sync :
  forall (P S : Type) (BP : IStorageBackend P) (BS : IStorageBackend S)
         (now : Time) (key : string) (value : Value) (ttl : option Z)
         (p : P) (s : S) (sync : bool),
    let h := {| HybridStorage.primary := p;
                HybridStorage.secondary := Some s;
                HybridStorage.sync_enabled := sync |} in
    (forall e p',
       storage_set now key value ttl p = (Raise e, p') ->
       HybridStorage.set now key value ttl h
       = (Raise e, {| HybridStorage.primary := p';
                      HybridStorage.secondary := Some s;
                      HybridStorage.sync_enabled := sync |}))
    /\ (forall p',
          storage_set now key value ttl p = (Ok tt, p') ->
          HybridStorage.set now key value ttl h
          = if sync
            then (fst (storage_set now key value ttl s),
                  {| HybridStorage.primary := p';
                     HybridStorage.secondary :=
                       Some (snd (storage_set now key value ttl s));
                     HybridStorage.sync_enabled := sync |})
            else (Ok tt, {| HybridStorage.primary := p';
                            HybridStorage.secondary := Some s;
                            HybridStorage.sync_enabled := sync |}))
    /\ (forall e p',
          storage_append_to_list now key value p = (Raise e, p') ->
          HybridStorage.append_to_list now key value h
          = (Raise e, {| HybridStorage.primary := p';
                         HybridStorage.secondary := Some s;
                         HybridStorage.sync_enabled := sync |}))
    /\ (forall p',
          storage_append_to_list now key value p = (Ok tt, p') ->
          HybridStorage.append_to_list now key value h
          = if sync
            then (fst (storage_append_to_list now key value s),
                  {| HybridStorage.primary := p';
                     HybridStorage.secondary :=
                       Some (snd (storage_append_to_list now key value s));
                     HybridStorage.sync_enabled := sync |})
            else (Ok tt, {| HybridStorage.primary := p';
                            HybridStorage.secondary := Some s;
                            HybridStorage.sync_enabled := sync |})).
Proof.
  intros P S BP BS now key value ttl p s sync h.
  unfold HybridStorage.set, HybridStorage.append_to_list, bind, gets, ret,
    HybridStorage.on_primary, HybridStorage.on_secondary,
    HybridStorage.has_secondary. simpl.
  repeat split.
  - intros e p' ->. done.
  - intros p' ->. simpl. destruct sync; simpl; [|done].
    by destruct (storage_set now key value ttl s).
  - intros e p' ->. done.
  - intros p' ->. simpl. destruct sync; simpl; [|done].
    by destruct (storage_append_to_list now key value s).
Qed.

Lemma hybrid_writes_follow_sync_witness :
  let h := HybridStorage.init LocalFileStorage.empty (Some LocalFileStorage.empty) in
  LocalFileStorage.set 1 "k" (PyStr "v") None LocalFileStorage.empty
    = (Ok tt, snd (LocalFileStorage.set 1 "k" (PyStr "v") None
                     LocalFileStorage.empty))
  /\ HybridStorage.secondary (snd (HybridStorage.set 1 "k" (PyStr "v") None h))
     = Some LocalFileStorage.empty.
Proof.
  intros h.
  assert (Hset : LocalFileStorage.set 1 "k" (PyStr "v") None
                   LocalFileStorage.empty
                 = (Ok tt, snd (LocalFileStorage.set 1 "k" (PyStr "v") None
                                  LocalFileStorage.empty)))
    by (vm_compute; reflexivity).
  split; [exact Hset|].
  destruct (hybrid_writes_follow_sync LocalFileStorage.t LocalFileStorage.t _ _
              1 "k" (PyStr "v") None LocalFileStorage.empty
              LocalFileStorage.empty false) as (_ & Hwrite & _).
  unfold h, HybridStorage.init. by rewrite (Hwrite _ Hset).
Defined.

(** X12. [delete] on a hybrid store of two file backends without disk
    faults removes the key from both: afterwards [get] reports the key
    absent and [exists] is false at any time, with or without sync, so the
    fallback read of the secondary cannot bring the key back. *)
Theorem hybrid_delete_removes_from_both :
  forall (now : Time) (key : string) (p s : LocalFileStorage.t) (sync : bool),
    LocalFileStorage.faulty p = ∅ ->
    LocalFileStorage.faulty s = ∅ ->
    exists h',
      HybridStorage.delete now key
        {| HybridStorage.primary := p; HybridStorage.secondary := Some s;
           HybridStorage.sync_enabled := sync |} = (Ok tt, h')
      /\ (forall t,
            HybridStorage.get t key h' = (Ok (Plain PyNone), h')
            /\ HybridStorage.exists_ t key h' = (Ok false, h')).
Proof.
  intros now key p s sync Hp Hs.
  destruct (delete_healthy_absent now key p Hp) as (p' & Hp' & Hafterp & _).
  destruct (delete_healthy_absent now key s Hs) as (s' & Hs' & Hafters & _).
  exists {| HybridStorage.primary := p'; HybridStorage.secondary := Some s';
            HybridStorage.sync_enabled := sync |}.
  split.
  - unfold HybridStorage.delete, bind, gets, HybridStorage.on_primary,
      HybridStorage.on_secondary, HybridStorage.has_secondary.
    hybrid_step. rewrite Hp'. hybrid_step. by rewrite Hs'.
  - intros t.
    destruct (Hafterp t) as (Hgp & Hep & _).
    destruct (Hafters t) as (Hgs & Hes & _).
    split.
    + unfold HybridStorage.get, bind, gets, ret,
        HybridStorage.on_primary, HybridStorage.on_secondary,
        HybridStorage.has_secondary.
      hybrid_step. rewrite Hgp. hybrid_step. rewrite Hgs. hybrid_step.
      by destruct sync.
    + unfold HybridStorage.exists_, bind, gets, ret,
        HybridStorage.on_primary, HybridStorage.on_secondary,
        HybridStorage.has_secondary.
      hybrid_step. rewrite Hep. hybrid_step. by rewrite Hes.
Qed.

Lemma hybrid_delete_removes_from_both_witness :
  LocalFileStorage.faulty scalar_store = ∅
  /\ exists h',
       HybridStorage.delete 2 "a"
         {| HybridStorage.primary := scalar_store;
            HybridStorage.secondary := Some scalar_store;
            HybridStorage.sync_enabled := true |} = (Ok tt, h')
       /\ HybridStorage.get 3 "a" h' = (Ok (Plain PyNone), h').
Proof.
  assert (Hf : LocalFileStorage.faulty scalar_store = ∅)
    by (vm_compute; reflexivity).
  split; [exact Hf|].
  destruct (hybrid_delete_removes_from_both 2 "a" scalar_store scalar_store
              true Hf Hf) as (h' & Hdel & Hafter).
  exists h'. split; [exact Hdel|]. apply Hafter.
Defined.

(** ** The routing engine: errors, the reply rule and the default routing *)

Lemma eval_rules_raise before r after message e :
  Forall (fun x => rule_outcome x message = Ok None) before ->
  rule_outcome r message = Raise e ->
  MessageRouter.eval_rules (before ++ r :: after) message = Raise e.
Proof.
  unfold rule_outcome.
  induction 1 as [|x l Hx Hl IH]; intros Hr; simpl in *.
  - destruct (condition r message) as [c|]; [|done].
    destruct (truthy c); [|done].
    by destruct (action r message) as [[?|]|].
  - destruct (condition x message) as [c|]; [|done].
    destruct (truthy c); [|by apply IH].
    destruct (action x message) as [[?|]|]; try done. by apply IH.
Qed.

Lemma eval_rules_none rules message :
  Forall (fun x => rule_outcome x message = Ok None) rules ->
  MessageRouter.eval_rules rules message = Ok None.
Proof.
  unfold rule_outcome.
  induction 1 as [|x l Hx Hl IH]; simpl in *; [done|].
  destruct (condition x message) as [c|]; [|done].
  destruct (truthy c); [|done].
  by destruct (action x message) as [[?|]|].
Qed.

(** X13. [route] turns every exception into a declining decision that
    carries the text of the exception: when the first rule that does not
    simply pass raises, in its condition or in its action, or when the
    look-up of the sender's active conversations raises, [route] returns
    [should_process = false] with the reason "Routing error: <text>". *)
Theorem route_turns_exceptions_into_declines :
  forall (S : Type) (B : IStorageBackend S) (rules : list RoutingRule)
         (now : Time) (m : Message) (st st' : S),
    (forall e,
       MessageRouter._find_active_conversation now (sender_id m) st
         = (Raise e, st') ->
       MessageRouter.route rules now m st = (routing_error e, st'))
    /\ (forall existing before r after e,
          MessageRouter._find_active_conversation now (sender_id m) st
            = (Ok existing, st') ->
          rules = before ++ r :: after ->
          Forall (fun x => rule_outcome x m = Ok None) before ->
          rule_outcome r m = Raise e ->
          MessageRouter.route rules now m st = (routing_error e, st')).
Proof.
  intros S B rules now m st st'. split.
  - intros e Hfind.
    unfold MessageRouter.route, MessageRouter.route_body, bind.
    by rewrite Hfind.
  - intros existing before r after e Hfind -> Hbefore Hr.
    unfold MessageRouter.route, MessageRouter.route_body, bind.
    rewrite Hfind, (eval_rules_raise _ _ _ _ _ Hbefore Hr). done.
Qed.

Lemma route_turns_exceptions_into_declines_witness :
  rule_outcome MessageRouter.ignore_system (user_message "hello" ∅) = Ok None
  /\ rule_outcome broken_rule (user_message "hello" ∅)
     = Raise (AttributeError "'NoneType' object has no attribute 'lower'")
  /\ MessageRouter.route (registered [broken_rule]) 5 (user_message "hello" ∅)
       LocalFileStorage.empty
     = (routing_error
          (AttributeError "'NoneType' object has no attribute 'lower'"),
        LocalFileStorage.empty).
Proof.
  split; [reflexivity|]. split; [reflexivity|].
  apply (proj2 (route_turns_exceptions_into_declines LocalFileStorage.t _
                  (registered [broken_rule]) 5 (user_message "hello" ∅)
                  LocalFileStorage.empty LocalFileStorage.empty)
           (Plain PyNone) [MessageRouter.ignore_system] broken_rule
           [MessageRouter.existing_conversation]).
  - reflexivity.
  - reflexivity.
  - repeat constructor.
  - reflexivity.
Defined.

Lemma registered_heads custom :
  Forall (fun r => priority r <= 90) custom ->
  exists tl, registered custom
             = MessageRouter.ignore_system
               :: MessageRouter.existing_conversation :: tl
             /\ Forall (fun x => priority x <= 90) tl.
Proof.
  unfold registered.
  induction custom as [|r custom IH] using rev_ind; intros Hc.
  - exists []. split; [reflexivity|constructor].
  - apply Forall_app in Hc as [Hc Hr]. apply Forall_inv in Hr.
    destruct (IH Hc) as (tl & Heq & Htl).
    rewrite foldl_app. simpl. rewrite Heq.
    exists (MessageRouter.add_rule r tl). split.
    + rewrite add_rule_keeps_head.
      * f_equal. apply add_rule_keeps_head; [exact Htl|].
        change (priority r <= 90). lia.
      * constructor; [simpl; lia|].
        eapply Forall_impl; [exact Htl|]. simpl. intros; lia.
      * change (priority r <= 100). lia.
    + unfold MessageRouter.add_rule. rewrite sort_by_priority_perm.
      apply Forall_app; split; [done|]. constructor; [lia|constructor].
Qed.

(** X14. A message that is not a system message and whose metadata names a
    conversation to reply to is routed to that conversation, without a new
    one being created, whatever custom rules of priority 90 or less were
    registered: the built-in reply rule comes right after the system rule.
    On the file backend the storage is left as it was. *)
Theorem route_follows_explicit_reply :
  forall (custom : list RoutingRule) (now : Time) (m : Message)
         (st : LocalFileStorage.t),
    scalar_truthy (default (PyBool false) (metadata m !! "is_system")) = false ->
    reply_to m <> PyNone ->
    Forall (fun r => priority r <= 90) custom ->
    MessageRouter.route (registered custom) now m st
    = (continuing_existing (Plain (reply_to m)), st).
Proof.
  intros custom now m st Hsys Hreply Hcustom.
  destruct (registered_heads custom Hcustom) as (tl & Heq & _).
  destruct (find_active_conversation_reads now (sender_id m) st) as [c Hc].
  eapply route_of_fired_rule; [exact Hc|].
  rewrite Heq. simpl. rewrite Hsys. fold (reply_to m).
  by destruct (reply_to m).
Qed.

Lemma route_follows_explicit_reply_witness :
  let m := user_message "ok" {[ "reply_to_conversation" := PyStr "c9" ]} in
  reply_to m <> PyNone
  /\ Forall (fun r => priority r <= 90) [greedy_rule 50]
  /\ MessageRouter.route (registered [greedy_rule 50]) 4 m active_store
     = (continuing_existing (Plain (PyStr "c9")), active_store).
Proof.
  intros m.
  assert (Hr : reply_to m <> PyNone) by (vm_compute; discriminate).
  assert (Hc : Forall (fun r => priority r <= 90) [greedy_rule 50])
    by (repeat constructor; simpl; lia).
  split; [exact Hr|]. split; [exact Hc|].
  exact (route_follows_explicit_reply [greedy_rule 50] 4 m active_store
           ltac:(vm_compute; reflexivity) Hr Hc).
Defined.

Lemma find_active_conversation_unfold now sender (st : LocalFileStorage.t) :
  MessageRouter._find_active_conversation now sender st
  = (Ok (default (Plain PyNone) (last (stored_list st (active_key sender)))), st).
Proof.
  unfold MessageRouter._find_active_conversation, bind.
  change (storage_get_list now ("active_conversations:" ++ sender)%string 0 (-1) st)
    with (LocalFileStorage.get_list now (active_key sender) 0 (-1) st).
  rewrite get_list_unfold. simpl. rewrite py_slice_all.
  by destruct (last _).
Qed.

Lemma is_conversation_active_unfold now c t (st : LocalFileStorage.t) :
  LocalFileStorage._is_expired now (last_activity_key c) st = false ->
  stored_value st (last_activity_key c) = IsoTime t ->
  MessageRouter._is_conversation_active now c st
  = (Ok (Z.ltb (now - t) 1800), st).
Proof.
  intros He Hv. unfold MessageRouter._is_conversation_active, bind.
  change (storage_get now ("conversation:" ++ py_str c ++ ":last_activity")%string st)
    with (LocalFileStorage.get now (last_activity_key c) st).
  rewrite (get_not_expired _ _ _ He). fold (stored_value st (last_activity_key c)).
  by rewrite Hv.
Qed.

Lemma route_with_active_conversation rules now t m c (st : LocalFileStorage.t) :
  Forall (fun r => rule_outcome r m = Ok None) rules ->
  last (stored_list st (active_key (sender_id m))) = Some c ->
  truthy c = true ->
  LocalFileStorage._is_expired now (last_activity_key c) st = false ->
  stored_value st (last_activity_key c) = IsoTime t ->
  MessageRouter.route rules now m st
  = (if Z.ltb (now - t) 1800 then continuing_active c
     else if MessageRouter._should_start_conversation m then starting_new
     else no_rule_matched, st).
Proof.
  intros Hrules Hlast Hc He Hv.
  unfold MessageRouter.route, MessageRouter.route_body, bind.
  rewrite find_active_conversation_unfold, Hlast. simpl.
  rewrite (eval_rules_none _ _ Hrules), Hc.
  rewrite (is_conversation_active_unfold _ _ _ _ He Hv).
  destruct (Z.ltb (now - t) 1800); [done|].
  by destruct (MessageRouter._should_start_conversation m).
Qed.

(** X15. The inactivity window.  When no rule fires and the last entry of
    the sender's list of active conversations is a conversation whose
    last-activity stamp is [t], [route] continues that conversation if
    less than 1800 seconds have passed since [t]; from 1800 seconds on it
    falls through to the test for a new conversation.  The storage is only
    read. *)
Theorem route_continues_within_thirty_minutes :
  forall (rules : list RoutingRule) (now t : Time) (m : Message) (c : Value)
         (st : LocalFileStorage.t),
    Forall (fun r => rule_outcome r m = Ok None) rules ->
    last (stored_list st (active_key (sender_id m))) = Some c ->
    truthy c = true ->
    LocalFileStorage._is_expired now (last_activity_key c) st = false ->
    stored_value st (last_activity_key c) = IsoTime t ->
    MessageRouter.route rules now m st
    = (if Z.ltb (now - t) 1800 then continuing_active c
       else if MessageRouter._should_start_conversation m then starting_new
       else no_rule_matched, st).
Proof.
  intros rules now t m c st. apply route_with_active_conversation.
Qed.

Lemma route_continues_within_thirty_minutes_witness :
  let m := user_message "and another thing" ∅ in
  Forall (fun r => rule_outcome r m = Ok None) MessageRouter.init
  /\ MessageRouter.route MessageRouter.init 2799 m active_store
     = (continuing_active (Plain (PyStr "c7")), active_store)
  /\ MessageRouter.route MessageRouter.init 2800 m active_store
     = (starting_new, active_store).
Proof.
  intros m.
  assert (Hrules : Forall (fun r => rule_outcome r m = Ok None) MessageRouter.init)
    by (repeat constructor).
  split; [exact Hrules|]. split.
  - rewrite (route_continues_within_thirty_minutes MessageRouter.init 2799 1000
               m (Plain (PyStr "c7")) active_store Hrules);
      vm_compute; reflexivity.
  - rewrite (route_continues_within_thirty_minutes MessageRouter.init 2800 1000
               m (Plain (PyStr "c7")) active_store Hrules);
      vm_compute; reflexivity.
Defined.








(** ** The conversation store: creation, update and the router *)

Lemma of_chars_app l1 l2 : of_chars (l1 ++ l2) = (of_chars l1 ++ of_chars l2)%string.
Proof. induction l1 as [|c l1 IH]; [done|]. simpl. by rewrite IH. Qed.

Lemma replace_char_append a b s1 s2 :
  replace_char a b (s1 ++ s2)%string
  = (replace_char a b s1 ++ replace_char a b s2)%string.
Proof.
  unfold replace_char. by rewrite chars_append, map_app, of_chars_app.
Qed.

(** The file names of the three records of a conversation. *)
Lemma conversation_file_path id suffix :
  LocalFileStorage._get_file_path ("conversation:" ++ id ++ suffix)
  = (("conversation_" ++ replace_char ":" "_" id)
       ++ (replace_char ":" "_" suffix ++ ".json"))%string.
Proof.
  unfold LocalFileStorage._get_file_path.
  rewrite !replace_char_append, !string_append_assoc. reflexivity.
Qed.

Lemma conversation_list_file_path id suffix :
  LocalFileStorage._get_list_file_path ("conversation:" ++ id ++ suffix)
  = (("conversation_" ++ replace_char ":" "_" id)
       ++ (replace_char ":" "_" suffix ++ "_list.json"))%string.
Proof.
  unfold LocalFileStorage._get_list_file_path.
  rewrite !replace_char_append, !string_append_assoc. reflexivity.
Qed.

Lemma conversation_paths_distinct id q :
  let ctx := LocalFileStorage._get_file_path (context_key id) in
  let act := LocalFileStorage._get_list_file_path (active_key q) in
  let msg := LocalFileStorage._get_list_file_path (messages_key (Plain (PyStr id))) in
  let la := LocalFileStorage._get_file_path (last_activity_key (Plain (PyStr id))) in
  ctx <> act /\ ctx <> msg /\ ctx <> la /\ act <> msg /\ act <> la /\ msg <> la.
Proof.
  intros ctx act msg la.
  assert (Hact : exists rest, act = String "a" rest) by (eexists; reflexivity).
  destruct Hact as [rest Hact].
  assert (Hctx : ctx = (("conversation_" ++ replace_char ":" "_" id)
                          ++ (replace_char ":" "_" ":context" ++ ".json"))%string)
    by apply conversation_file_path.
  assert (Hmsg : msg = (("conversation_" ++ replace_char ":" "_" id)
                          ++ (replace_char ":" "_" ":messages" ++ "_list.json"))%string)
    by apply conversation_list_file_path.
  assert (Hla : la = (("conversation_" ++ replace_char ":" "_" id)
                        ++ (replace_char ":" "_" ":last_activity" ++ ".json"))%string)
    by apply conversation_file_path.
  rewrite Hact, Hctx, Hmsg, Hla.
  split; [discriminate|]. split.
  { intros Heq%String.app_inj. vm_compute in Heq. discriminate. }
  split.
  { intros Heq%String.app_inj. vm_compute in Heq. discriminate. }
  split; [discriminate|]. split; [discriminate|].
  intros Heq%String.app_inj. vm_compute in Heq. discriminate.
Qed.

Lemma set_healthy now key value (st : LocalFileStorage.t) :
  LocalFileStorage.faulty st = ∅ ->
  json_serializable value = true ->
  LocalFileStorage.set now key value None st
  = (Ok tt,
     LocalFileStorage.with_files
       (<[LocalFileStorage._get_file_path key
          := LocalFileStorage.ScalarRecord value None]>) st).
Proof.
  intros Hf Hv. rewrite set_unfold, Hf, Hv.
  destruct (decide _) as [Hin|_]; [set_solver|]. done.
Qed.

Lemma append_healthy now key value (st : LocalFileStorage.t) :
  LocalFileStorage.faulty st = ∅ ->
  json_serializable value = true ->
  LocalFileStorage.append_to_list now key value st
  = (Ok tt,
     LocalFileStorage.with_files
       (<[LocalFileStorage._get_list_file_path key
          := LocalFileStorage.ListRecord (stored_list st key ++ [value])]>) st).
Proof.
  intros Hf Hv. rewrite append_to_list_unfold. simpl. rewrite Hf, Hv.
  destruct (decide _) as [Hin|_]; [set_solver|]. done.
Qed.

Section CreateConversation.
Variable json_dumps_message : Message -> result string.

(** The store that [create_conversation] leaves on a healthy disk. *)
Lemma create_conversation_state now id m meta text (st : LocalFileStorage.t) :
  LocalFileStorage.faulty st = ∅ ->
  LocalFileStorage._ttl_registry st = ∅ ->
  json_dumps_message m = Ok text ->
  serializable_context (ConversationLifecycle.new_context now id m meta) ->
  exists st',
    ConversationLifecycle.create_conversation json_dumps_message now id m meta st
      = (Ok (ConversationLifecycle.new_context now id m meta), st')
    /\ LocalFileStorage.faulty st' = ∅
    /\ LocalFileStorage._ttl_registry st' = ∅
    /\ LocalFileStorage.files st' !! LocalFileStorage._get_file_path (context_key id)
       = Some (LocalFileStorage.ScalarRecord
                 (ContextJson (ConversationLifecycle.new_context now id m meta))
                 None)
    /\ stored_list st' (active_key (sender_id m))
       = stored_list st (active_key (sender_id m)) ++ [Plain (PyStr id)]
    /\ stored_list st' (messages_key (Plain (PyStr id)))
       = stored_list st (messages_key (Plain (PyStr id))) ++ [Plain (PyStr text)]
    /\ stored_value st' (last_activity_key (Plain (PyStr id))) = IsoTime now.
Proof.
  intros Hf Hreg Hdumps Hser.
  destruct (conversation_paths_distinct id (sender_id m))
    as (H1 & H2 & H3 & H4 & H5 & H6).
  unfold ConversationLifecycle.create_conversation.
  unfold bind at 1.
  unfold ConversationManager._save_conversation_context, bind at 1.
  unfold ConversationManager._serialize_context.
  rewrite bool_decide_eq_true_2 by exact Hser.
  cbn [ConversationManager.lift_result ret ctx_conversation_id
       ConversationLifecycle.new_context].
  change (storage_set now ("conversation:" ++ id ++ ":context")%string ?v None st)
    with (LocalFileStorage.set now (context_key id) v None st).
  rewrite (set_healthy now (context_key id)
             (ContextJson (ConversationLifecycle.new_context now id m meta))
             st Hf eq_refl).
  set (st1 := LocalFileStorage.with_files _ st).
  unfold bind at 1.
  change (storage_append_to_list now ("active_conversations:" ++ sender_id m)%string
            (Plain (PyStr id)) st1)
    with (LocalFileStorage.append_to_list now (active_key (sender_id m))
            (Plain (PyStr id)) st1).
  rewrite (append_healthy now (active_key (sender_id m)) (Plain (PyStr id))
             st1 Hf eq_refl).
  set (st2 := LocalFileStorage.with_files _ st1).
  unfold bind at 1.
  unfold ConversationLifecycle._save_message, bind at 1.
  rewrite Hdumps. cbn [ConversationManager.lift_result ret].
  change (storage_append_to_list now
            ("conversation:" ++ py_str (Plain (PyStr id)) ++ ":messages")%string
            (Plain (PyStr text)) st2)
    with (LocalFileStorage.append_to_list now (messages_key (Plain (PyStr id)))
            (Plain (PyStr text)) st2).
  rewrite (append_healthy now (messages_key (Plain (PyStr id)))
             (Plain (PyStr text)) st2 Hf eq_refl).
  set (st3 := LocalFileStorage.with_files _ st2).
  unfold bind at 1. unfold ConversationLifecycle._update_last_activity.
  change (storage_set now
            ("conversation:" ++ py_str (Plain (PyStr id)) ++ ":last_activity")%string
            (IsoTime now) None st3)
    with (LocalFileStorage.set now (last_activity_key (Plain (PyStr id)))
            (IsoTime now) None st3).
  rewrite (set_healthy now (last_activity_key (Plain (PyStr id))) (IsoTime now)
             st3 Hf eq_refl).
  set (st4 := LocalFileStorage.with_files _ st3).
  exists st4. split; [reflexivity|]. split; [exact Hf|]. split; [exact Hreg|].
  assert (Hl1 : stored_list st1 (active_key (sender_id m))
                = stored_list st (active_key (sender_id m))).
  { unfold stored_list. subst st1. simpl. by rewrite lookup_insert_ne. }
  assert (Hl2 : stored_list st2 (messages_key (Plain (PyStr id)))
                = stored_list st (messages_key (Plain (PyStr id)))).
  { unfold stored_list. subst st2 st1. simpl.
    rewrite lookup_insert_ne by done. by rewrite lookup_insert_ne. }
  split; [|split; [|split]].
  - subst st4 st3 st2 st1. simpl.
    rewrite lookup_insert_ne by (by apply not_eq_sym).
    rewrite lookup_insert_ne by (by apply not_eq_sym).
    rewrite lookup_insert_ne by (by apply not_eq_sym).
    by rewrite lookup_insert_eq.
  - unfold stored_list at 1. subst st4 st3. simpl.
    rewrite lookup_insert_ne by (by apply not_eq_sym).
    rewrite lookup_insert_ne by (by apply not_eq_sym).
    subst st2. simpl. rewrite lookup_insert_eq. simpl. by rewrite Hl1.
  - unfold stored_list at 1. subst st4. simpl.
    rewrite lookup_insert_ne by (by apply not_eq_sym).
    subst st3. simpl. rewrite lookup_insert_eq. simpl. by rewrite Hl2.
  - unfold stored_value. subst st4. simpl. by rewrite lookup_insert_eq.
Qed.
End CreateConversation.

Lemma not_expired_without_registry t key (st : LocalFileStorage.t) :
  LocalFileStorage._ttl_registry st = ∅ ->
  LocalFileStorage._is_expired t key st = false.
Proof. intros Hreg. unfold LocalFileStorage._is_expired. by rewrite Hreg. Qed.

(** X17. [create_conversation] on a file backend without disk faults and
    without TTL in use, for a message that can be serialised: it returns
    the new context, active, with the sender and the recipient as
    participants and the time of the call as both stamps; afterwards
    [get_conversation] finds that context, the identifier is the last
    entry of the sender's list of active conversations, the text of the
    message is the last entry of the history, and the last-activity stamp
    is the time of the call. *)
Theorem create_conversation_persists :
  forall (json_dumps_message : Message -> result string)
         (now : Time) (id : string) (m : Message) (meta : gmap string Scalar)
         (text : string) (st : LocalFileStorage.t),
    LocalFileStorage.faulty st = ∅ ->
    LocalFileStorage._ttl_registry st = ∅ ->
    json_dumps_message m = Ok text ->
    serializable_context (ConversationLifecycle.new_context now id m meta) ->
    exists st',
      ConversationLifecycle.create_conversation json_dumps_message now id m meta st
        = (Ok (ConversationLifecycle.new_context now id m meta), st')
      /\ (forall t,
            ConversationManager.get_conversation t (Plain (PyStr id)) st'
              = (Ok (Some (ConversationLifecycle.new_context now id m meta)), st')
            /\ LocalFileStorage.get_list t (active_key (sender_id m)) 0 (-1) st'
               = (Ok (stored_list st (active_key (sender_id m))
                        ++ [Plain (PyStr id)]), st')
            /\ LocalFileStorage.get_list t (messages_key (Plain (PyStr id))) 0 (-1) st'
               = (Ok (stored_list st (messages_key (Plain (PyStr id)))
                        ++ [Plain (PyStr text)]), st')
            /\ LocalFileStorage.get t (last_activity_key (Plain (PyStr id))) st'
               = (Ok (IsoTime now), st')).
Proof.
  intros dumps now id m meta text st Hf Hreg Hdumps Hser.
  destruct (create_conversation_state dumps now id m meta text st Hf Hreg
              Hdumps Hser)
    as (st' & Hrun & _ & Hreg' & Hctx & Hact & Hmsg & Hla).
  exists st'. split; [exact Hrun|]. intros t.
  split; [|split; [|split]].
  - eapply get_conversation_of_record; [|exact Hctx].
    by apply not_expired_without_registry.
  - by rewrite get_list_unfold, py_slice_all, Hact.
  - by rewrite get_list_unfold, py_slice_all, Hmsg.
  - rewrite get_not_expired by (by apply not_expired_without_registry).
    fold (stored_value st' (last_activity_key (Plain (PyStr id)))).
    by rewrite Hla.
Qed.

Lemma create_conversation_persists_witness :
  let m := user_message "hello" ∅ in
  id_text m = Ok "m2"
  /\ exists st',
       ConversationLifecycle.create_conversation id_text 10 "c8" m ∅ active_store
         = (Ok (ConversationLifecycle.new_context 10 "c8" m ∅), st')
       /\ LocalFileStorage.get_list 11 (active_key "user_123") 0 (-1) st'
          = (Ok [Plain (PyStr "c7"); Plain (PyStr "c8")], st').
Proof.
  intros m. split; [reflexivity|].
  destruct (create_conversation_persists id_text 10 "c8" m ∅ "m2" active_store)
    as (st' & Hrun & Hafter).
  - vm_compute. reflexivity.
  - vm_compute. reflexivity.
  - reflexivity.
  - unfold serializable_context. apply map_Forall_empty.
  - exists st'. split; [exact Hrun|].
    destruct (Hafter 11) as (_ & Hact & _). exact Hact.
Defined.

(** X18. A conversation that was just created is the one the router
    continues: when no rule fires, a message of the same sender is routed
    to the new conversation as long as less than 1800 seconds have passed
    since the creation, and goes through the test for a new conversation
    from then on. *)
Theorem created_conversation_is_continued :
  forall (json_dumps_message : Message -> result string)
         (rules : list RoutingRule) (now t : Time) (id : string)
         (m m' : Message) (meta : gmap string Scalar) (text : string)
         (st st' : LocalFileStorage.t) (ctx : ConversationContext),
    LocalFileStorage.faulty st = ∅ ->
    LocalFileStorage._ttl_registry st = ∅ ->
    json_dumps_message m = Ok text ->
    serializable_context (ConversationLifecycle.new_context now id m meta) ->
    ConversationLifecycle.create_conversation json_dumps_message now id m meta st
      = (Ok ctx, st') ->
    id <> "" ->
    sender_id m' = sender_id m ->
    Forall (fun r => rule_outcome r m' = Ok None) rules ->
    MessageRouter.route rules t m' st'
    = (if Z.ltb (t - now) 1800 then continuing_active (Plain (PyStr id))
       else if MessageRouter._should_start_conversation m' then starting_new
       else no_rule_matched, st').
Proof.
  intros dumps rules now t id m m' meta text st st' ctx Hf Hreg Hdumps Hser
    Hrun Hid Hsender Hrules.
  destruct (create_conversation_state dumps now id m meta text st Hf Hreg
              Hdumps Hser)
    as (st0 & Hrun0 & _ & Hreg' & _ & Hact & _ & Hla).
  rewrite Hrun in Hrun0. injection Hrun0 as _ <-.
  apply route_with_active_conversation; [exact Hrules| | | |exact Hla].
  - by rewrite Hsender, Hact, last_snoc.
  - simpl. by destruct (String.eqb_spec id "").
  - by apply not_expired_without_registry.
Qed.

Lemma created_conversation_is_continued_witness :
  let m := user_message "hello" ∅ in
  let st' := snd (ConversationLifecycle.create_conversation id_text 10 "c8" m ∅
                    LocalFileStorage.empty) in
  MessageRouter.route MessageRouter.init 1809 (user_message "more" ∅) st'
    = (continuing_active (Plain (PyStr "c8")), st')
  /\ MessageRouter.route MessageRouter.init 1810 (user_message "more" ∅) st'
     = (starting_new, st').
Proof.
  intros m st'.
  assert (Hrun : ConversationLifecycle.create_conversation id_text 10 "c8" m ∅
                   LocalFileStorage.empty
                 = (Ok (ConversationLifecycle.new_context 10 "c8" m ∅), st'))
    by (vm_compute; reflexivity).
  assert (Hser : serializable_context
                   (ConversationLifecycle.new_context 10 "c8" m ∅))
    by (unfold serializable_context; apply map_Forall_empty).
  assert (Hrules : Forall (fun r => rule_outcome r (user_message "more" ∅) = Ok None)
                          MessageRouter.init) by (repeat constructor).
  split.
  - rewrite (created_conversation_is_continued id_text MessageRouter.init 10 1809
               "c8" m (user_message "more" ∅) ∅ "m2" LocalFileStorage.empty st' _
               eq_refl eq_refl eq_refl Hser Hrun ltac:(discriminate) eq_refl
               Hrules).
    reflexivity.
  - rewrite (created_conversation_is_continued id_text MessageRouter.init 10 1810
               "c8" m (user_message "more" ∅) ∅ "m2" LocalFileStorage.empty st' _
               eq_refl eq_refl eq_refl Hser Hrun ltac:(discriminate) eq_refl
               Hrules).
    reflexivity.
Defined.

(** X19. [update_conversation] on a file backend without TTL in use.  For
    a conversation that is not stored it raises [ValueError] and writes
    nothing.  For a stored conversation, on a disk without faults and for
    a message that can be serialised, it returns; afterwards the context
    has the time of the call as [updated_at] and is otherwise as before,
    the text of the message is the last entry of the history, the
    last-activity stamp is the time of the call, and the lists of active
    conversations are as before. *)
Theorem update_conversation_touches_and_appends :
  forall (json_dumps_message : Message -> result string)
         (now : Time) (id : string) (m : Message) (st : LocalFileStorage.t),
    LocalFileStorage._ttl_registry st = ∅ ->
    (LocalFileStorage.files st !! LocalFileStorage._get_file_path (context_key id)
       = None ->
     ConversationLifecycle.update_conversation json_dumps_message now
       (Plain (PyStr id)) m st
     = (Raise (ValueError ("Conversation " ++ id ++ " not found")), st))
    /\ (forall ctx ttl text,
          LocalFileStorage.faulty st = ∅ ->
          LocalFileStorage.files st
            !! LocalFileStorage._get_file_path (context_key id)
          = Some (LocalFileStorage.ScalarRecord (ContextJson ctx) ttl) ->
          ctx_conversation_id ctx = id ->
          serializable_context ctx ->
          json_dumps_message m = Ok text ->
          exists st',
            ConversationLifecycle.update_conversation json_dumps_message now
              (Plain (PyStr id)) m st = (Ok tt, st')
            /\ (forall t,
                  ConversationManager.get_conversation t (Plain (PyStr id)) st'
                    = (Ok (Some (ConversationLifecycle.touched now ctx)), st')
                  /\ LocalFileStorage.get_list t (messages_key (Plain (PyStr id)))
                       0 (-1) st'
                     = (Ok (stored_list st (messages_key (Plain (PyStr id)))
                              ++ [Plain (PyStr text)]), st')
                  /\ LocalFileStorage.get t (last_activity_key (Plain (PyStr id))) st'
                     = (Ok (IsoTime now), st'))
            /\ (forall q, stored_list st' (active_key q)
                          = stored_list st (active_key q))).
Proof.
  intros dumps now id m st Hreg. split.
  - intros Hnone.
    unfold ConversationLifecycle.update_conversation, bind at 1.
    unfold ConversationManager.get_conversation, bind.
    change (storage_get now ("conversation:" ++ py_str (Plain (PyStr id))
                             ++ ":context")%string st)
      with (LocalFileStorage.get now (context_key id) st).
    rewrite get_not_expired by (by apply not_expired_without_registry).
    by rewrite Hnone.
  - intros ctx ttl text Hf Hfile Hid Hser Hdumps.
    unfold ConversationLifecycle.update_conversation, bind at 1.
    rewrite (get_conversation_of_record now id ctx ttl st
               (not_expired_without_registry _ _ _ Hreg) Hfile).
    unfold bind at 1.
    unfold ConversationManager._save_conversation_context, bind at 1.
    unfold ConversationManager._serialize_context.
    rewrite bool_decide_eq_true_2 by exact Hser.
    cbn [ConversationManager.lift_result ret ctx_conversation_id
         ConversationLifecycle.touched].
    rewrite Hid.
    change (storage_set now ("conversation:" ++ id ++ ":context")%string ?v None st)
      with (LocalFileStorage.set now (context_key id) v None st).
    rewrite (set_healthy now (context_key id)
               (ContextJson (ConversationLifecycle.touched now ctx)) st Hf eq_refl).
    set (st1 := LocalFileStorage.with_files _ st).
    unfold bind at 1.
    unfold ConversationLifecycle._save_message, bind at 1.
    rewrite Hdumps. cbn [ConversationManager.lift_result ret].
    change (storage_append_to_list now
              ("conversation:" ++ py_str (Plain (PyStr id)) ++ ":messages")%string
              (Plain (PyStr text)) st1)
      with (LocalFileStorage.append_to_list now (messages_key (Plain (PyStr id)))
              (Plain (PyStr text)) st1).
    rewrite (append_healthy now (messages_key (Plain (PyStr id)))
               (Plain (PyStr text)) st1 Hf eq_refl).
    set (st2 := LocalFileStorage.with_files _ st1).
    unfold ConversationLifecycle._update_last_activity.
    change (storage_set now
              ("conversation:" ++ py_str (Plain (PyStr id)) ++ ":last_activity")%string
              (IsoTime now) None st2)
      with (LocalFileStorage.set now (last_activity_key (Plain (PyStr id)))
              (IsoTime now) None st2).
    rewrite (set_healthy now (last_activity_key (Plain (PyStr id))) (IsoTime now)
               st2 Hf eq_refl).
    set (st3 := LocalFileStorage.with_files _ st2).
    exists st3. split; [reflexivity|].
    assert (Hreg3 : LocalFileStorage._ttl_registry st3 = ∅) by exact Hreg.
    split.
    + intros t.
      destruct (conversation_paths_distinct id "") as (_ & H2 & H3 & _ & _ & H6).
      split; [|split].
      * eapply (get_conversation_of_record t id _ None);
          [by apply not_expired_without_registry|].
        subst st3 st2 st1. simpl.
        rewrite lookup_insert_ne by (by apply not_eq_sym).
        rewrite lookup_insert_ne by (by apply not_eq_sym).
        by rewrite lookup_insert_eq.
      * rewrite get_list_unfold, py_slice_all. unfold stored_list at 1.
        subst st3. simpl. rewrite lookup_insert_ne by (by apply not_eq_sym).
        subst st2. simpl. rewrite lookup_insert_eq. simpl.
        unfold stored_list. subst st1. simpl.
        by rewrite lookup_insert_ne.
      * rewrite get_not_expired by (by apply not_expired_without_registry).
        subst st3. simpl. by rewrite lookup_insert_eq.
    + intros q.
      destruct (conversation_paths_distinct id q) as (H1 & _ & _ & H4 & H5 & _).
      unfold stored_list. subst st3 st2 st1. simpl.
      rewrite lookup_insert_ne by (by apply not_eq_sym).
      rewrite lookup_insert_ne by (by apply not_eq_sym).
      by rewrite lookup_insert_ne by (by apply not_eq_sym).
Qed.

Lemma update_conversation_touches_and_appends_witness :
  LocalFileStorage._ttl_registry two_conversations_store = ∅
  /\ ConversationLifecycle.update_conversation id_text 9 (Plain (PyStr "c5"))
       (user_message "hi" ∅) two_conversations_store
     = (Raise (ValueError "Conversation c5 not found"), two_conversations_store)
  /\ exists st',
       ConversationLifecycle.update_conversation id_text 9 (Plain (PyStr "c1"))
         (user_message "hi" ∅) two_conversations_store = (Ok tt, st')
       /\ ConversationManager.get_conversation 12 (Plain (PyStr "c1")) st'
          = (Ok (Some (ConversationLifecycle.touched 9 context_c1)), st').
Proof.
  assert (Hreg : LocalFileStorage._ttl_registry two_conversations_store = ∅)
    by (vm_compute; reflexivity).
  split; [exact Hreg|]. split.
  - apply (proj1 (update_conversation_touches_and_appends id_text 9 "c5"
                    (user_message "hi" ∅) two_conversations_store Hreg)).
    vm_compute. reflexivity.
  - destruct (proj2 (update_conversation_touches_and_appends id_text 9 "c1"
                       (user_message "hi" ∅) two_conversations_store Hreg)
                context_c1 None "m2") as (st' & Hrun & Hafter & _).
    + vm_compute. reflexivity.
    + vm_compute. reflexivity.
    + reflexivity.
    + unfold serializable_context. apply map_Forall_empty.
    + reflexivity.
    + exists st'. split; [exact Hrun|]. apply Hafter.
Defined.



(** ** The interceptor pipeline: the successful path and the processors *)

Section InterceptSuccess.
Import MessageInterceptor.
Context {W : Type}.
Implicit Types (ic : MessageInterceptor.t W) (m : Message) (w : W).

Lemma pre_processors_raise ps m w e w1 :
  run_processors ps m w = (Raise e, w1) ->
  exists m', for_each ps apply_processor (m, w) = (Raise e, (m', w1)).
Proof.
  revert m w. induction ps as [|p ps IH]; intros m w; cbn [for_each run_processors].
  - intros [=].
  - unfold bind at 1 2. unfold apply_processor, bind, current, world, rebind,
      gets, modify. cbn [fst snd].
    destruct (p m w) as [[m'|e0] w'].
    + intros Hrest. by apply IH.
    + intros [= -> ->]. by exists m.
Qed.

Lemma run_processors_app ps p m w :
  run_processors (ps ++ [p]) m w
  = match run_processors ps m w with
    | (Ok m', w') => p m' w'
    | (Raise e, w') => (Raise e, w')
    end.
Proof.
  revert m w. induction ps as [|q ps IH]; intros m w; cbn [app run_processors].
  - unfold bind, ret. by destruct (p m w) as [[?|?] ?].
  - unfold bind. destruct (q m w) as [[m'|e] w']; [apply IH|done].
Qed.

(** [process_in] when the agent answers and the store takes the update. *)
Lemma process_in_success ic now c m0 w agent resp w1 w2 :
  _select_agent ic c = Some agent ->
  process_message agent now (with_status PROCESSING m0) c w = (Ok resp, w1) ->
  manager_update_conversation (conversation_manager ic) now
    (ctx_conversation_id c) (with_status PROCESSING m0) w1 = (Ok tt, w2) ->
  match resp with
  | None =>
      process_in ic now c (m0, w) = (Ok None, (with_status PROCESSED m0, w2))
  | Some r =>
      forall w3 r' w4,
        manager_update_conversation (conversation_manager ic) now
          (ctx_conversation_id c) r w2 = (Ok tt, w3) ->
        run_processors (_post_processors ic) r w3 = (Ok r', w4) ->
        process_in ic now c (m0, w) = (Ok (Some r'), (with_status PROCESSED m0, w4))
  end.
Proof.
  intros Hagent Hproc Hupd.
  assert (Hstart : process_in ic now c (m0, w)
    = (let! _ := (match resp with
                  | Some r =>
                      world (manager_update_conversation (conversation_manager ic)
                               now (ctx_conversation_id c) r)
                  | None => ret tt
                  end) in
       let! _ := set_status PROCESSED in
       match resp with
       | Some r =>
           let! r' := world (run_processors (_post_processors ic) r) in
           ret (Some r')
       | None => ret None
       end) (with_status PROCESSING m0, w2)).
  { unfold process_in. rewrite Hagent.
    unfold bind at 1. unfold set_status at 1, modify. cbn [fst snd].
    unfold bind at 1. unfold current at 1, gets. cbn [fst snd].
    unfold bind at 1. unfold world at 1. cbn [fst snd]. rewrite Hproc.
    unfold bind at 1. unfold world at 1. cbn [fst snd]. rewrite Hupd.
    reflexivity. }
  rewrite Hstart. destruct resp as [r|].
  - intros w3 r' w4 Hupd2 Hpost.
    unfold bind at 1. unfold world at 1. cbn [fst snd]. rewrite Hupd2.
    unfold bind at 1. unfold set_status at 1, modify. cbn [fst snd].
    unfold bind, world, ret. cbn [fst snd]. rewrite Hpost. reflexivity.
  - reflexivity.
Qed.
End InterceptSuccess.

(** X21. The successful path of [intercept].  When the decision asks for
    a new conversation, the store creates it, an agent is selected and
    answers, and the store takes the updates: the conversation is created
    from the message in status QUEUED, the agent and the first update of
    the store receive the message in status PROCESSING and bound to the
    conversation, the answer of the agent is stored next and then goes
    through the post-processors in registration order; [intercept]
    returns their outcome and leaves the message PROCESSED.  When the
    agent has no answer, the post-processors do not run and [None] is
    returned, the message being PROCESSED all the same. *)
Theorem intercept_processes_new_conversation :
  forall (W : Type) (ic : MessageInterceptor.t W) (now : Time)
         (message m1 : Message) (w w1 w2 w3 w4 w5 : W) (d : RoutingDecision)
         (c : ConversationContext) (agent : IAgent W) (resp : option Message),
    MessageInterceptor.run_processors
      (MessageInterceptor._pre_processors ic) message w = (Ok m1, w1) ->
    router_route (MessageInterceptor.router ic) now (with_status QUEUED m1) w1
      = (Ok d, w2) ->
    should_process d = true ->
    create_new_conversation d = true ->
    manager_create_conversation (MessageInterceptor.conversation_manager ic)
      now (with_status QUEUED m1) (rd_metadata d) w2 = (Ok c, w3) ->
    MessageInterceptor._select_agent ic c = Some agent ->
    let bound := with_conversation_id (ctx_conversation_id c) m1 in
    process_message agent now (with_status PROCESSING bound) c w3 = (Ok resp, w4) ->
    manager_update_conversation (MessageInterceptor.conversation_manager ic)
      now (ctx_conversation_id c) (with_status PROCESSING bound) w4 = (Ok tt, w5) ->
    match resp with
    | None =>
        MessageInterceptor.intercept ic now message w
        = (Ok None, (with_status PROCESSED bound, w5))
    | Some r =>
        forall w6 r' w7,
          manager_update_conversation (MessageInterceptor.conversation_manager ic)
            now (ctx_conversation_id c) r w5 = (Ok tt, w6) ->
          MessageInterceptor.run_processors
            (MessageInterceptor._post_processors ic) r w6 = (Ok r', w7) ->
          MessageInterceptor.intercept ic now message w
          = (Ok (Some r'), (with_status PROCESSED bound, w7))
    end.
Proof.
  intros W ic now message m1 w w1 w2 w3 w4 w5 d c agent resp Hpre Hroute Hsp Hnew
    Hcreate Hagent bound Hproc Hupd.
  assert (Hbody : MessageInterceptor.intercept_body ic now (message, w)
                  = MessageInterceptor.process_in ic now c
                      (with_conversation_id (ctx_conversation_id c)
                         (with_status QUEUED m1), w3)).
  { rewrite (intercept_routed _ _ _ _ _ _ _ _ Hpre Hroute), Hsp, Hnew.
    cbn [negb].
    unfold bind at 1. unfold MessageInterceptor.world at 1. cbn [fst snd].
    rewrite Hcreate.
    unfold bind at 1. unfold MessageInterceptor.set_conversation_id at 1, modify.
    reflexivity. }
  unfold MessageInterceptor.intercept, try_except. rewrite Hbody.
  pose proof (process_in_success ic now c
                (with_conversation_id (ctx_conversation_id c)
                   (with_status QUEUED m1)) w3 agent resp w4 w5 Hagent Hproc Hupd)
    as Hin.
  destruct resp as [r|].
  - intros w6 r' w7 Hupd2 Hpost. by rewrite (Hin w6 r' w7 Hupd2 Hpost).
  - by rewrite Hin.
Qed.

Lemma intercept_processes_new_conversation_witness :
  MessageInterceptor.intercept echo_pipeline 5 (user_message "hello" ∅) tt
  = (Ok (Some (user_message "hello -- bot" ∅)),
     (with_status PROCESSED (with_conversation_id "c1" (user_message "hello" ∅)),
      tt)).
Proof.
  exact (intercept_processes_new_conversation unit echo_pipeline 5
           (user_message "hello" ∅) (user_message "hello" ∅)
           tt tt tt tt tt tt starting_new context_c1 echo_agent
           (Some (user_message "hello" ∅))
           eq_refl eq_refl eq_refl eq_refl eq_refl eq_refl eq_refl eq_refl
           tt (user_message "hello -- bot" ∅) tt eq_refl eq_refl).
Defined.

(** X22. The pre-processors run in registration order, each on the message
    that the one before returned: a processor added with
    [add_pre_processor] runs after those already registered.  When a
    pre-processor raises, [intercept] raises the same exception with the
    message marked FAILED, and neither the router nor the store is called:
    the world is as the processors left it. *)
Theorem pre_processors_run_in_order_and_fail_fast :
  forall (W : Type) (ic : MessageInterceptor.t W)
         (processor : Message -> M W Message) (now : Time)
         (message : Message) (w : W),
    MessageInterceptor.run_processors
      (MessageInterceptor._pre_processors
         (MessageInterceptorSetup.add_pre_processor processor ic)) message w
    = match MessageInterceptor.run_processors
              (MessageInterceptor._pre_processors ic) message w with
      | (Ok m', w') => processor m' w'
      | (Raise e, w') => (Raise e, w')
      end
    /\ (forall e w1,
          MessageInterceptor.run_processors
            (MessageInterceptor._pre_processors ic) message w = (Raise e, w1) ->
          exists m',
            MessageInterceptor.intercept ic now message w = (Raise e, (m', w1))
            /\ status m' = FAILED).
Proof.
  intros W ic processor now message w. split.
  - apply run_processors_app.
  - intros e w1 Hpre.
    destruct (pre_processors_raise _ _ _ _ _ Hpre) as [m0 Hloop].
    exists (with_status FAILED m0). split; [|done].
    unfold MessageInterceptor.intercept, try_except,
      MessageInterceptor.intercept_body.
    unfold bind at 1. rewrite Hloop. reflexivity.
Qed.

Lemma pre_processors_run_in_order_and_fail_fast_witness :
  let ic := MessageInterceptorSetup.add_pre_processor failing_processor
              echo_pipeline in
  MessageInterceptor.run_processors (MessageInterceptor._pre_processors ic)
    (user_message "hello" ∅) tt
    = (Raise (RuntimeError "pre-processor failed"), tt)
  /\ exists m',
       MessageInterceptor.intercept ic 5 (user_message "hello" ∅) tt
         = (Raise (RuntimeError "pre-processor failed"), (m', tt))
       /\ status m' = FAILED.
Proof.
  intros ic.
  assert (Hpre : MessageInterceptor.run_processors
                   (MessageInterceptor._pre_processors ic)
                   (user_message "hello" ∅) tt
                 = (Raise (RuntimeError "pre-processor failed"), tt))
    by reflexivity.
  split; [exact Hpre|].
  exact (proj2 (pre_processors_run_in_order_and_fail_fast unit ic
                  failing_processor 5 (user_message "hello" ∅) tt) _ _ Hpre).
Defined.

(** ** Keyword rules *)






(** ** Agents and the keys of a hybrid store *)

(** X24. The agent of a conversation: after [register_agent id agent], a
    conversation bound to [id] (a non-empty identifier) is handled by
    [agent]; the conversations bound to another identifier are handled as
    before; a conversation that is bound to no agent, or to an identifier
    under which no agent is registered, is handled by the default agent. *)
Theorem register_agent_selects_bound_agent :
  forall (W : Type) (ic : MessageInterceptor.t W) (id : string)
         (agent : IAgent W) (c : ConversationContext),
    let ic' := MessageInterceptorSetup.register_agent id agent ic in
    (agent_id c = Some id -> id <> "" ->
     MessageInterceptor._select_agent ic' c = Some agent)
    /\ (agent_id c <> Some id ->
        MessageInterceptor._select_agent ic' c
        = MessageInterceptor._select_agent ic c)
    /\ (agent_id c = None ->
        MessageInterceptor._select_agent ic c
        = MessageInterceptor.default_agent ic)
    /\ (forall a, agent_id c = Some a ->
        MessageInterceptor.agents ic !! a = None ->
        MessageInterceptor._select_agent ic c
        = MessageInterceptor.default_agent ic).
Proof.
  intros W ic id agent c ic'. unfold MessageInterceptor._select_agent.
  split; [|split; [|split]].
  - intros -> Hid. destruct (String.eqb_spec id ""); [done|]. simpl.
    by rewrite lookup_insert_eq.
  - intros Hne. destruct (agent_id c) as [a|]; [|done].
    destruct (negb (String.eqb a "")); [|done]. simpl.
    rewrite lookup_insert_ne; [done|]. congruence.
  - by intros ->.
  - intros a -> Hnone. rewrite Hnone. by destruct (negb _).
Qed.

Lemma register_agent_selects_bound_agent_witness :
  let c := ConversationLifecycle.new_context 0 "c1" (user_message "hi" ∅)
             {[ "agent_id" := PyStr "sales" ]} in
  agent_id c = Some "sales"
  /\ MessageInterceptor._select_agent
       (MessageInterceptorSetup.register_agent "sales" echo_agent
          declining_pipeline) c = Some echo_agent
  /\ MessageInterceptor._select_agent declining_pipeline c = None.
Proof.
  intros c.
  assert (Hid : agent_id c = Some "sales") by reflexivity.
  split; [exact Hid|]. split.
  - apply (proj1 (register_agent_selects_bound_agent unit declining_pipeline
                    "sales" echo_agent c) Hid).
    discriminate.
  - destruct (register_agent_selects_bound_agent unit declining_pipeline
                "sales" echo_agent c) as (_ & _ & _ & Hunreg).
    apply (Hunreg "sales" Hid). reflexivity.
Defined.

(** X25. The keys of a hybrid store with a secondary: when both backends
    list their keys, [list_keys] returns every key that one of them lists,
    and no other, each once. *)
Theorem hybrid_list_keys_is_union :
  forall (P S : Type) (BP : IStorageBackend P) (BS : IStorageBackend S)
         (now : Time) (pattern : string) (p p' : P) (s s' : S) (sync : bool)
         (kp ks : list string),
    storage_list_keys now pattern p = (Ok kp, p') ->
    storage_list_keys now pattern s = (Ok ks, s') ->
    exists keys,
      HybridStorage.list_keys now pattern
        {| HybridStorage.primary := p; HybridStorage.secondary := Some s;
           HybridStorage.sync_enabled := sync |}
      = (Ok keys, {| HybridStorage.primary := p';
                     HybridStorage.secondary := Some s';
                     HybridStorage.sync_enabled := sync |})
      /\ NoDup keys
      /\ (forall k, k ∈ keys <-> k ∈ kp \/ k ∈ ks).
Proof.
  intros P S BP BS now pattern p p' s s' sync kp ks Hp Hs.
  exists (remove_dups (kp ++ ks)). split; [|split].
  - unfold HybridStorage.list_keys, bind, gets, ret, HybridStorage.on_primary,
      HybridStorage.on_secondary, HybridStorage.has_secondary.
    cbn [HybridStorage.primary HybridStorage.secondary
         HybridStorage.sync_enabled fst snd].
    rewrite Hp.
    cbn [HybridStorage.primary HybridStorage.secondary
         HybridStorage.sync_enabled fst snd].
    by rewrite Hs.
  - apply NoDup_remove_dups.
  - intros k. by rewrite elem_of_remove_dups, elem_of_app.
Qed.

Lemma hybrid_list_keys_is_union_witness :
  exists keys,
    fst (HybridStorage.list_keys 1 "*"
           {| HybridStorage.primary := scalar_store;
              HybridStorage.secondary := Some context_store;
              HybridStorage.sync_enabled := false |}) = Ok keys
    /\ NoDup keys
    /\ "a" ∈ keys /\ "conversation:42:context" ∈ keys.
Proof.
  destruct (list_keys_reads 1 "*" scalar_store) as (kp & Hkp & _).
  destruct (list_keys_reads 1 "*" context_store) as (ks & Hks & _).
  destruct (hybrid_list_keys_is_union LocalFileStorage.t LocalFileStorage.t
              LocalFileStorage_backend LocalFileStorage_backend
              1 "*" scalar_store scalar_store context_store context_store false
              kp ks Hkp Hks) as (keys & Hrun & Hnd & Hin).
  exists keys. split; [by rewrite Hrun|]. split; [exact Hnd|].
  assert (Hkp' : kp = ["a"]).
  { vm_compute in Hkp. by injection Hkp as <-. }
  assert (Hks' : ks = ["conversation:42:context"]).
  { vm_compute in Hks. by injection Hks as <-. }
  subst kp ks. split; apply Hin; [left|right]; by left.
Defined.

(** ** Writes that fail, and conversations that are not stored *)

(** X26. A write that fails in [json.dumps] destroys the record it was to
    replace: the file is opened for writing, and so emptied, before the
    value is serialised.  After a [set] of a value that cannot be
    serialised, which raises, [get] reports the key absent whatever it
    held before; after such an [append_to_list], which raises, the list of
    the key is empty whatever entries it had. *)
Theorem failed_serialization_destroys_record :
  forall (now t : Time) (key : string) (value : Value) (ttl : option Z)
         (st : LocalFileStorage.t),
    json_serializable value = false ->
    ((LocalFileStorage._get_file_path key ∉ LocalFileStorage.faulty st) ->
     exists e st',
       LocalFileStorage.set now key value ttl st = (Raise e, st')
       /\ fst (LocalFileStorage.get t key st') = Ok (Plain PyNone))
    /\ ((LocalFileStorage._get_list_file_path key ∉ LocalFileStorage.faulty st) ->
        exists e st',
          LocalFileStorage.append_to_list now key value st = (Raise e, st')
          /\ LocalFileStorage.get_list t key 0 (-1) st' = (Ok [], st')).
Proof.
  intros now t key value ttl st Hv. split.
  - intros Hok. rewrite set_unfold, Hv.
    destruct (decide _); [done|].
    eexists _, _. split; [reflexivity|].
    set (st' := LocalFileStorage.with_files _ st).
    destruct (LocalFileStorage._is_expired t key st') eqn:He.
    + by rewrite (get_expired _ _ _ He).
    + rewrite (get_not_expired _ _ _ He). subst st'. simpl.
      by rewrite lookup_insert_eq.
  - intros Hok. rewrite append_to_list_unfold. simpl. rewrite Hv.
    destruct (decide _); [done|].
    eexists _, _. split; [reflexivity|].
    rewrite get_list_unfold. unfold stored_list. simpl.
    rewrite lookup_insert_eq. simpl. by rewrite py_slice_nil.
Qed.

Lemma failed_serialization_destroys_record_witness :
  json_serializable (Plain (PyObject 0)) = false
  /\ fst (LocalFileStorage.get_list 1 "active_conversations:u1" 0 (-1)
            two_conversations_store)
     = Ok [Plain (PyStr "c1"); Plain (PyStr "c2")]
  /\ exists e st',
       LocalFileStorage.append_to_list 3 "active_conversations:u1"
         (Plain (PyObject 0)) two_conversations_store = (Raise e, st')
       /\ LocalFileStorage.get_list 4 "active_conversations:u1" 0 (-1) st'
          = (Ok [], st').
Proof.
  split; [reflexivity|]. split; [vm_compute; reflexivity|].
  apply (proj2 (failed_serialization_destroys_record 3 4
                  "active_conversations:u1" (Plain (PyObject 0)) None
                  two_conversations_store eq_refl)).
  vm_compute. set_solver.
Defined.

(** X27. A conversation that is not stored, on a file backend without TTL
    in use: [get_conversation] returns [None], and [close_conversation]
    raises [ValueError] with the text "Conversation <id> not found"; neither
    writes anything. *)
Theorem missing_conversation_is_reported :
  forall (now : Time) (id : string) (st : LocalFileStorage.t),
    LocalFileStorage._ttl_registry st = ∅ ->
    LocalFileStorage.files st !! LocalFileStorage._get_file_path (context_key id)
      = None ->
    ConversationManager.get_conversation now (Plain (PyStr id)) st = (Ok None, st)
    /\ ConversationManager.close_conversation now (Plain (PyStr id)) st
       = (Raise (ValueError ("Conversation " ++ id ++ " not found")), st).
Proof.
  intros now id st Hreg Hnone.
  assert (Hget : ConversationManager.get_conversation now (Plain (PyStr id)) st
                 = (Ok None, st)).
  { unfold ConversationManager.get_conversation, bind.
    change (storage_get now ("conversation:" ++ py_str (Plain (PyStr id))
                             ++ ":context")%string st)
      with (LocalFileStorage.get now (context_key id) st).
    rewrite get_not_expired by (by apply not_expired_without_registry).
    by rewrite Hnone. }
  split; [exact Hget|].
  unfold ConversationManager.close_conversation, bind. by rewrite Hget.
Qed.

Lemma missing_conversation_is_reported_witness :
  LocalFileStorage._ttl_registry two_conversations_store = ∅
  /\ ConversationManager.close_conversation 4 (Plain (PyStr "c2"))
       two_conversations_store
     = (Raise (ValueError "Conversation c2 not found"), two_conversations_store).
Proof.
  assert (Hreg : LocalFileStorage._ttl_registry two_conversations_store = ∅)
    by (vm_compute; reflexivity).
  split; [exact Hreg|].
  apply (missing_conversation_is_reported 4 "c2" two_conversations_store Hreg).
  vm_compute. reflexivity.
Defined.
